(** * ats-checker: the request pipeline of [app.js]

    A shallow embedding of the Express service of [src/app.js] (and of its
    second deployment variant, which only has the [/api/ats-check] route):
    upload intake, text extraction, prompt building, the call to the
    generation collaborator, the strict/fallback response normalizers and the
    cleanup of the uploaded file.

    JavaScript strings are sequences of UTF-16 code units, numbers are
    binary64 values ([spec_float]), handlers are computations in a small
    state-and-exception monad over the file system, the response object and
    a trace of console output and collaborator calls. *)

From Stdlib Require Import ZArith NArith List String Ascii Bool Lia DecimalString DecimalN.
From Stdlib Require Import Floats.SpecFloat.
From stdpp Require Import base option list gmap.

Set Warnings "-register-all".

Local Open Scope N_scope.
Local Open Scope list_scope.

(** ** Strings *)

Module JsString.

(** A string value: its UTF-16 code units. *)
Abbreviation t := (list N).

(** A source literal (all literals of [app.js] are ASCII). *)
Definition lit (s : string) : t :=
  List.map N_of_ascii (list_ascii_of_string s).

(** The double quote, which the prompt templates contain. *)
Definition dquote : t := [34].

(** The line feed of the template literals and of ["\n"]. *)
Definition nl : t := [10].

Definition eqb (a b : t) : bool := bool_decide (a = b).

(** [\d] of a regular expression without flags: 0-9. *)
Definition isDigit (c : N) : bool := (48 <=? c) && (c <=? 57).

(** The class [[\r\n]]. *)
Definition isCRLF (c : N) : bool := (c =? 13) || (c =? 10).

(** WhiteSpace and LineTerminator of ECMAScript, the code units that
    [String.prototype.trim] strips. *)
Definition isWhiteSpace (c : N) : bool :=
  (c =? 9) || (c =? 10) || (c =? 11) || (c =? 12) || (c =? 13) ||
  (c =? 32) || (c =? 160) || (c =? 5760) ||
  ((8192 <=? c) && (c <=? 8202)) ||
  (c =? 8232) || (c =? 8233) || (c =? 8239) || (c =? 8287) ||
  (c =? 12288) || (c =? 65279).

Fixpoint trimStart (s : t) : t :=
  match s with
  | c :: r => if isWhiteSpace c then trimStart r else s
  | [] => []
  end.

Definition trimEnd (s : t) : t := rev (trimStart (rev s)).

(** [s.trim()] *)
Definition trim (s : t) : t := trimEnd (trimStart s).

(** The longest run of digits at the head of [s]: what the greedy [\d+]
    consumes once it has started. *)
Fixpoint digitRun (s : t) : t :=
  match s with
  | c :: r => if isDigit c then c :: digitRun r else []
  | [] => []
  end.

(** [s.match(/\d+/)], reduced to the element [0] of the match array the
    source reads: the regular expression is tried at each index from the
    left and is greedy. [None] is the [null] of a failed match. *)
Fixpoint match_digits (s : t) : option t :=
  match s with
  | [] => None
  | c :: r => if isDigit c then Some (digitRun s) else match_digits r
  end.

(** [s.replace(/[\r\n]+/g, "\n")]: [in_run] tells that the previous code
    unit belonged to the run being replaced. *)
Fixpoint replace_runs (in_run : bool) (s : t) : t :=
  match s with
  | [] => []
  | c :: r =>
      if isCRLF c
      then (if in_run then replace_runs true r else 10 :: replace_runs true r)
      else c :: replace_runs false r
  end.

Definition replace_crlf (s : t) : t := replace_runs false s.

(** Decimal rendering of a non-negative integer, as in a template
    literal. *)
Definition of_N (n : N) : t :=
  lit (NilZero.string_of_uint (N.to_uint n)).

End JsString.

Abbreviation jsstring := (list N).
Abbreviation lit := JsString.lit.

(** ** Numbers *)

Module JsNumber.

(** The Number value of a mathematical integer: round to nearest, ties
    to even, in binary64. [negzero] gives the sign of a zero result. *)
Definition of_Z (z : Z) (negzero : bool) : spec_float :=
  binary_normalize 53 1024 z 0 negzero.

Definition of_N (n : N) : spec_float := of_Z (Z.of_N n) false.

(** ToBoolean on a Number: +0, -0 and NaN are falsy. *)
Definition truthy (x : spec_float) : bool :=
  match x with
  | S754_zero _ | S754_nan => false
  | _ => true
  end.

Definition ltb (x y : spec_float) : bool := SFltb x y.

Definition digitValue (radix c : N) : option N :=
  let v :=
    if (48 <=? c) && (c <=? 57) then Some (c - 48)
    else if (97 <=? c) && (c <=? 122) then Some (c - 87)
    else if (65 <=? c) && (c <=? 90) then Some (c - 55)
    else None in
  match v with
  | Some d => if d <? radix then Some d else None
  | None => None
  end.

(** The digits of the radix at the head of [s], as one integer; [None]
    when there is none. *)
Fixpoint readDigits (radix : N) (acc : option N) (s : jsstring) : option N :=
  match s with
  | [] => acc
  | c :: r =>
      match digitValue radix c with
      | Some d => readDigits radix (Some (default 0 acc * radix + d)) r
      | None => acc
      end
  end.

(** [parseInt(s)] with no radix argument: leading white space, a sign, a
    [0x] or [0X] prefix, then the digits up to the first other code unit. *)
Definition parseInt (s : jsstring) : spec_float :=
  let s1 := JsString.trimStart s in
  let '(neg, s2) :=
    match s1 with
    | c :: r =>
        if c =? 45 then (true, r)
        else if c =? 43 then (false, r)
        else (false, s1)
    | [] => (false, s1)
    end in
  let '(radix, s3) :=
    match s2 with
    | c0 :: c1 :: r =>
        if (c0 =? 48) && ((c1 =? 120) || (c1 =? 88)) then (16, r) else (10, s2)
    | _ => (10, s2)
    end in
  match readDigits radix None s3 with
  | None => S754_nan
  | Some m => of_Z (if neg then Z.opp (Z.of_N m) else Z.of_N m) neg
  end.

(** The integer a string of decimal digits denotes. *)
Definition decimal (digits : jsstring) : N :=
  fold_left (fun acc c => acc * 10 + (c - 48)) digits 0.

End JsNumber.

(** ** Values *)

Inductive JSValue : Type :=
| JUndefined
| JNull
| JBool (b : bool)
| JNumber (x : spec_float)
| JString (s : jsstring)
| JArray (items : list JSValue)
| JObject (props : list (jsstring * JSValue)).

(** ToBoolean: what [!v], [v || w] and [c ? a : b] test. *)
Definition truthy (v : JSValue) : bool :=
  match v with
  | JUndefined | JNull => false
  | JBool b => b
  | JNumber x => JsNumber.truthy x
  | JString s => negb (JsString.eqb s [])
  | JArray _ | JObject _ => true
  end.

(** [Array.isArray(v)] *)
Definition isArray (v : JSValue) : bool :=
  match v with
  | JArray _ => true
  | _ => false
  end.

(** [a || b] *)
Definition js_or (a b : JSValue) : JSValue := if truthy a then a else b.

(** The own property [k] of an object, in a property list. *)
Fixpoint own (props : list (jsstring * JSValue)) (k : jsstring) : JSValue :=
  match props with
  | [] => JUndefined
  | (k', v) :: rest => if JsString.eqb k' k then v else own rest k
  end.

(** [v.k] for the property names the handlers read ([score], [findings],
    [suggestions], [coverLetter], [jobDescription], [skillsExperience]):
    none of them is defined on a built-in prototype, so the read gives the
    own property of an object, [undefined] on any other value that has
    properties, and fails (a TypeError, [None]) on [null] and [undefined]. *)
Definition get (v : JSValue) (k : jsstring) : option JSValue :=
  match v with
  | JUndefined | JNull => None
  | JObject props => Some (own props k)
  | _ => Some JUndefined
  end.

(** A string array literal. *)
Definition strings (l : list string) : JSValue :=
  JArray (List.map (fun s => JString (lit s)) l).

(** ** Exceptions, the world and the handler monad *)

(** A thrown [Error] object, by the two properties the handlers read. *)
Record Error := mkError { message : jsstring; stack : jsstring }.

(** Errors that the runtime and Node's libraries raise by themselves. Their
    texts are the engine's. *)
Inductive Fault :=
| TypeError_read (v : JSValue) (k : jsstring)
| SyntaxError_JSON (text : jsstring)
| ENOENT (path : jsstring)
| EISDIR (path : jsstring)
| ENOTDIR (path : jsstring)
| EEXIST (path : jsstring)
| EPERM (path : jsstring)
| ERR_HTTP_HEADERS_SENT.

(** What a path names on disk. Whether a file can be unlinked (directory
    permissions and the like) is part of the state of the disk. *)
Inductive Node :=
| File (content : list N) (removable : bool)
| Directory.

(** What [res.status(c).json(obj)] sends: the status and the object given
    to [json], before serialization. *)
Record Response := mkResponse { status : N; json : JSValue }.

(** Console output and calls to the two collaborators, in order. *)
Inductive Event :=
| ConsoleLog (label : string)
| ConsoleError (label : string)
| PdfParse (dataBuffer : list N)
| GenerateContent (prompt : jsstring).

Record State := mkState {
  fs : gmap jsstring Node;
  res : option Response;
  trace : list Event;
  filePath : option jsstring      (* the handler's [let filePath = null] *)
}.

Inductive Outcome (A : Type) :=
| Normal (a : A)
| Throw (e : Error).
Arguments Normal {A} a.
Arguments Throw {A} e.

Definition M (A : Type) : Type := State -> Outcome A * State.

Definition run {A} (m : M A) (st : State) : Outcome A * State := m st.

#[global] Instance M_ret : MRet M := fun A a st => (Normal a, st).

#[global] Instance M_bind : MBind M := fun A B k m st =>
  match m st with
  | (Normal a, st') => k a st'
  | (Throw e, st') => (Throw e, st')
  end.

Definition throw {A} (e : Error) : M A := fun st => (Throw e, st).

(** [try { m } catch (error) { h error }] *)
Definition try_catch {A} (m : M A) (h : Error -> M A) : M A := fun st =>
  match m st with
  | (Normal a, st') => (Normal a, st')
  | (Throw e, st') => h e st'
  end.

(** [try { m } finally { f }]: [f] runs on every exit of [m]; an exception
    of [f] replaces the completion of [m]. *)
Definition try_finally {A} (m : M A) (f : M unit) : M A := fun st =>
  match m st with
  | (o, st') =>
      match f st' with
      | (Normal _, st'') => (o, st'')
      | (Throw e, st'') => (Throw e, st'')
      end
  end.

Definition emit (ev : Event) : M unit := fun st =>
  (Normal tt, mkState (fs st) (res st) (trace st ++ [ev]) (filePath st)).

Definition console_log (label : string) : M unit := emit (ConsoleLog label).
Definition console_error (label : string) : M unit := emit (ConsoleError label).

Definition set_filePath (p : option jsstring) : M unit := fun st =>
  (Normal tt, mkState (fs st) (res st) (trace st) p).

Definition get_filePath : M (option jsstring) := fun st => (Normal (filePath st), st).

(** [if (filePath)]: neither [null] nor the empty string. *)
Definition path_truthy (p : option jsstring) : bool :=
  match p with
  | Some s => negb (JsString.eqb s [])
  | None => false
  end.

(** [fs.existsSync(p)] *)
Definition existsSync (p : jsstring) : M bool := fun st =>
  (Normal (bool_decide (is_Some (fs st !! p))), st).

Definition initial (disk : gmap jsstring Node) : State := mkState disk None [] None.

(** The events a handler produced that are calls to the generation
    collaborator, and those that are calls to the PDF parser. *)
Definition isGenerate (ev : Event) : bool :=
  match ev with GenerateContent _ => true | _ => false end.

Definition isPdfParse (ev : Event) : bool :=
  match ev with PdfParse _ => true | _ => false end.

Definition generation_calls (st : State) : list Event := List.filter isGenerate (trace st).
Definition extraction_calls (st : State) : list Event := List.filter isPdfParse (trace st).

(** ** The service *)

(** The collaborators and the engine. [JSON_parse] is [JSON.parse] ([None]
    when it throws a SyntaxError); [pdf] is the [pdf-parse] module, giving
    the [text] property of its result ([None] inside [Normal] when that is
    [undefined]); [generateContent] is the generative model followed by
    [result.response.text()]; [NODE_ENV] and [Date_now] are the environment
    variable and the clock; [engine_error] gives the error object of a
    runtime fault, [capture_stack] the [stack] of an [Error] built with a
    message, and [ToString] the string conversion of a value that is not a
    string. [busboy_type] is the type [busboy] reports for the Content-Type
    a part declares (lower-cased, without its parameters); [mkdir_fault]
    tells when the operating system refuses to create a directory
    (permissions, a read-only or full disk), and [unlinkable] whether a
    file the server wrote at a path can be unlinked afterwards. *)
Class Engine := {
  JSON_parse : jsstring -> option JSValue;
  pdf : list N -> Outcome (option jsstring);
  generateContent : jsstring -> Outcome jsstring;
  NODE_ENV : option jsstring;
  Date_now : N;
  engine_error : Fault -> Error;
  capture_stack : jsstring -> jsstring;
  ToString : JSValue -> jsstring;
  busboy_type : jsstring -> jsstring;
  mkdir_fault : jsstring -> option Fault;
  unlinkable : jsstring -> bool
}.

Section App.

Context {engine : Engine}.

(** [new Error(msg)] *)
Definition new_Error (msg : string) : Error :=
  mkError (lit msg) (capture_stack (lit msg)).

Definition fault {A} (f : Fault) : M A := throw (engine_error f).

(** [process.env.NODE_ENV === "development"] *)
Definition development : bool :=
  match NODE_ENV with
  | Some s => JsString.eqb s (lit "development")
  | None => false
  end.

(** [${v}] in a template literal. *)
Definition interpolate (v : JSValue) : jsstring :=
  match v with
  | JString s => s
  | _ => ToString v
  end.

(** *** Node's [fs] *)

Definition readFileSync (p : jsstring) : M (list N) := fun st =>
  match fs st !! p with
  | Some (File content _) => (Normal content, st)
  | Some Directory => fault (EISDIR p) st
  | None => fault (ENOENT p) st
  end.

Definition unlinkSync (p : jsstring) : M unit := fun st =>
  match fs st !! p with
  | Some (File _ true) =>
      (Normal tt, mkState (delete p (fs st)) (res st) (trace st) (filePath st))
  | Some (File _ false) => fault (EPERM p) st
  | Some Directory => fault (EISDIR p) st
  | None => fault (ENOENT p) st
  end.

Definition mkdirSync (p : jsstring) : M unit := fun st =>
  match fs st !! p with
  | Some _ => fault (EEXIST p) st
  | None =>
      match mkdir_fault p with
      | Some f => fault f st
      | None =>
          (Normal tt,
           mkState (<[p := Directory]> (fs st)) (res st) (trace st) (filePath st))
      end
  end.

(** Writing the upload stream to [dir/name]. *)
Definition writeFile (dir name : jsstring) (content : list N) : M unit := fun st =>
  let p := dir ++ lit "/" ++ name in
  match fs st !! dir with
  | Some Directory =>
      match fs st !! p with
      | Some Directory => fault (EISDIR p) st
      | _ =>
          (Normal tt,
           mkState (<[p := File content (unlinkable p)]> (fs st)) (res st) (trace st)
             (filePath st))
      end
  | Some (File _ _) => fault (ENOTDIR p) st
  | None => fault (ENOENT p) st
  end.

(** *** Express's response *)

(** [res.status(code).json(obj)]; a second send on one response throws. *)
Definition res_status_json (code : N) (obj : JSValue) : M unit := fun st =>
  match res st with
  | None =>
      (Normal tt, mkState (fs st) (Some (mkResponse code obj)) (trace st) (filePath st))
  | Some _ => fault ERR_HTTP_HEADERS_SENT st
  end.

(** [res.json(obj)] *)
Definition res_json (obj : JSValue) : M unit := res_status_json 200 obj.

(** *** Upload intake: the [multer] configuration *)

(** A file part of a multipart request. [declared] is the Content-Type the
    part declares and [size] the number of bytes the client streams for
    it. *)
Record FilePart := mkFilePart {
  fieldname : jsstring;
  originalname : jsstring;
  declared : jsstring;
  size : N;
  content : list N
}.

(** [file.mimetype]: the type [busboy] reports for the part. *)
Definition mimetype (file : FilePart) : jsstring := busboy_type (declared file).

(** [req.file] *)
Record UploadedFile := mkUploadedFile {
  path : jsstring;
  file_originalname : jsstring;
  file_mimetype : jsstring;
  file_size : N
}.

(** A request as it arrives: at most one file part, and the body (the text
    fields of a multipart request, or the parsed JSON body). *)
Record Request := mkRequest {
  part : option FilePart;
  fields : JSValue
}.

(** A request as a handler sees it. *)
Record Req := mkReq {
  req_file : option UploadedFile;
  req_body : JSValue
}.

Definition uploadDir : jsstring := lit "uploads".

(** [storage.destination] *)
Definition destination : M jsstring :=
  present ← existsSync uploadDir;
  (if negb present then mkdirSync uploadDir else mret tt);;
  mret uploadDir.

(** [storage.filename] *)
Definition filename (file : FilePart) : jsstring :=
  JsString.of_N Date_now ++ lit "-" ++ originalname file.

(** The answer a [fileFilter] gives through its callback. *)
Inductive FilterAnswer :=
| Accept
| Reject (e : Error).

Definition fileFilter (file : FilePart) : FilterAnswer :=
  if JsString.eqb (mimetype file) (lit "application/pdf")
  then Accept
  else Reject (new_Error "Only PDF files are allowed").

(** [limits.fileSize] *)
Definition fileSize : N := 5 * 1024 * 1024.

(** What [multer] does with a file it stored when the request is aborted:
    [fs.unlink], whose failure is collected in [storageErrors] and not
    raised. *)
Definition removeUploaded (p : jsstring) : M unit :=
  try_catch (unlinkSync p) (fun _ => mret tt).

(** The first [n] bytes of a stream. *)
Fixpoint firstBytes (n : N) (stream : list N) : list N :=
  match stream with
  | [] => []
  | b :: rest => if n =? 0 then [] else b :: firstBytes (N.pred n) rest
  end.

(** [upload.single(name)], that is [multer]'s handling of the one file part
    under this configuration: a part without a file name is skipped as no
    file at all; then the field name is checked, then [fileFilter] is asked
    about the file, then the storage engine writes the stream.
    [busboy] cuts a stream that reaches [limits.fileSize]: what was written
    of it is removed again and the request fails. A [Throw] here is an
    error raised before the handler runs. *)
Definition upload_single (name : jsstring) (r : Request) : M (option UploadedFile) :=
  match part r with
  | None => mret None
  | Some file =>
      if JsString.eqb (originalname file) [] then mret None
      else if negb (JsString.eqb (fieldname file) name)
      then throw (new_Error "Unexpected field")
      else
        match fileFilter file with
        | Reject e => throw e
        | Accept =>
            dir ← destination;
            if fileSize <=? size file
            then
              writeFile dir (filename file) (firstBytes fileSize (content file));;
              removeUploaded (dir ++ lit "/" ++ filename file);;
              throw (new_Error "File too large")
            else
              writeFile dir (filename file) (content file);;
              mret (Some (mkUploadedFile (dir ++ lit "/" ++ filename file)
                            (originalname file) (mimetype file)
                            (size file)))
        end
  end.

(** How a request to a route ends: the handler ran, or the upload
    middleware gave an error to [next], or raised one, and the handler was
    skipped. *)
Inductive Served :=
| Handled (o : Outcome unit) (st : State)
| Skipped (e : Error) (st : State).


(** [app.post(path, upload.single("resume"), handler)] on a fresh response. *)
Definition post_upload (handler : Req -> M unit) (r : Request)
    (disk : gmap jsstring Node) : Served :=
  match run (upload_single (lit "resume") r) (initial disk) with
  | (Throw e, st) => Skipped e st
  | (Normal file, st) =>
      let (o, st') := run (handler (mkReq file (fields r))) st in Handled o st'
  end.

(** [app.post(path, handler)] behind [express.json()]. *)
Definition post_json (handler : Req -> M unit) (body : JSValue)
    (disk : gmap jsstring Node) : Served :=
  let (o, st') := run (handler (mkReq None body)) (initial disk) in Handled o st'.

(** *** Helpers of [app.js] *)

Definition call_pdf (dataBuffer : list N) : M (option jsstring) := fun st =>
  (pdf dataBuffer,
   mkState (fs st) (res st) (trace st ++ [PdfParse dataBuffer]) (filePath st)).

(** [model.generateContent(prompt)] and [result.response.text()] *)
Definition call_generate (prompt : jsstring) : M jsstring := fun st =>
  (generateContent prompt,
   mkState (fs st) (res st) (trace st ++ [GenerateContent prompt]) (filePath st)).

(** [JSON.parse(text)] *)
Definition parse (text : jsstring) : M JSValue :=
  match JSON_parse text with
  | Some v => mret v
  | None => fault (SyntaxError_JSON text)
  end.

(** [v.k] *)
Definition read (v : JSValue) (k : string) : M JSValue :=
  match get v (lit k) with
  | Some x => mret x
  | None => fault (TypeError_read v (lit k))
  end.

Definition extractTextFromPDF (filePath : jsstring) : M (option jsstring) :=
  try_catch
    (dataBuffer ← readFileSync filePath;
     text ← call_pdf dataBuffer;
     mret text)
    (fun error =>
       console_error "PDF extraction error:";;
       throw (new_Error "Failed to extract text from PDF")).

Definition cleanupFile (filePath : jsstring) : M unit :=
  try_catch
    (present ← existsSync filePath;
     if (present : bool) then unlinkSync filePath else mret tt)
    (fun error => console_error "Error cleaning up file:").

(** [!text || text.trim().length === 0] *)
Definition blank (text : option jsstring) : bool :=
  match text with
  | None => true
  | Some s => JsString.eqb s [] || (N.of_nat (length (JsString.trim s)) =? 0)
  end.

(** The [finally] block of the two upload handlers. *)
Definition cleanup_upload : M unit :=
  p ← get_filePath;
  if path_truthy p then cleanupFile (default [] p) else mret tt.

(** The error payload of the two upload handlers. *)
Definition error_payload (fallback : string) (error : Error) : JSValue :=
  JObject [
    (lit "error", js_or (JString (message error)) (JString (lit fallback)));
    (lit "details", if development then JString (stack error) else JUndefined)
  ].

(** *** Prompt templates *)

Definition unlines (ls : list jsstring) : jsstring :=
  match ls with
  | [] => []
  | l :: rest => l ++ List.concat (List.map (fun x => JsString.nl ++ x) rest)
  end.

Definition quoted (s : string) : jsstring :=
  JsString.dquote ++ lit s ++ JsString.dquote.

Definition ats_prompt (pdfText : jsstring) : jsstring :=
  unlines [
    lit "You are an ATS (Applicant Tracking System) expert. Analyze this resume and provide:";
    lit "    1. A score from 0-100 based on ATS compatibility";
    lit "    2. Key findings about the resume's ATS-friendliness";
    lit "    3. Specific suggestions for improvement";
    [];
    lit "    Resume content:";
    lit "    " ++ pdfText;
    [];
    lit "    Provide the response in the following JSON format only:";
    lit "    {";
    lit "      " ++ quoted "score" ++ lit ": number,";
    lit "      " ++ quoted "findings" ++ lit ": [string],";
    lit "      " ++ quoted "suggestions" ++ lit ": [string]";
    lit "    }"
  ].

Definition cover_letter_prompt (resumeText : jsstring) (jobDescription : JSValue) : jsstring :=
  unlines [
    lit "You are a professional cover letter writer. Using the provided resume and job description, create a compelling cover letter. The cover letter should:";
    lit "    1. Be tailored to the specific job";
    lit "    2. Highlight relevant experience from the resume";
    lit "    3. Show enthusiasm for the role";
    lit "    4. Be professional but personable";
    lit "    5. Be around 300-400 words";
    [];
    lit "    Resume content:";
    lit "    " ++ resumeText;
    [];
    lit "    Job Description:";
    lit "    " ++ interpolate jobDescription;
    [];
    lit "   Provide the response in the following JSON format only:";
    lit "    {";
    lit "      " ++ quoted "coverLetter" ++ lit ": string (the complete cover letter),";
    lit "    }"
  ].

Definition cover_letter_text_prompt (skillsExperience jobDescription : JSValue) : jsstring :=
  unlines [
    lit "You are a professional cover letter writer. Using the provided skills/experience and job description, create a compelling cover letter. The cover letter should: ";
    lit "    1. Be tailored to the specific job ";
    lit "    2. Highlight relevant experience from the provided background ";
    lit "    3. Show enthusiasm for the role ";
    lit "    4. Be professional but personable ";
    lit "    5. Be around 300-400 words";
    [];
    lit "    Candidate's Skills and Experience: " ++ interpolate skillsExperience;
    lit "    Job Description: " ++ interpolate jobDescription;
    [];
    lit "    Provide the response in the following JSON format only: ";
    lit "    {";
    lit "      " ++ quoted "coverLetter" ++ lit ": string (the complete cover letter),";
    lit "    }"
  ].

(** *** Response normalizers: the inner [try]/[catch] of each handler *)

(** [/api/ats-check] *)
Definition ats_normalize (responseText : jsstring) : M unit :=
  try_catch
    (parsedResponse ← parse responseText;
     score ← read parsedResponse "score";
     invalid ← (if negb (truthy score) then mret true
                else suggestions ← read parsedResponse "suggestions";
                     mret (negb (isArray suggestions))) : M bool;
     if (invalid : bool) then throw (new_Error "Invalid response format from AI")
     else
       score ← read parsedResponse "score";
       findings ← read parsedResponse "findings";
       suggestions ← read parsedResponse "suggestions";
       res_json (JObject [
         (lit "score", score);
         (lit "findings", js_or findings (JArray []));
         (lit "suggestions", suggestions)
       ]))
    (fun parseError =>
       console_error "Parse error:";;
       let scoreMatch := JsString.match_digits responseText in
       let score :=
         match scoreMatch with
         | Some m => JsNumber.parseInt m
         | None => JsNumber.of_N 70
         end in
       res_json (JObject [
         (lit "score", JNumber score);
         (lit "findings", strings ["Analysis completed"%string]);
         (lit "suggestions", strings ["Consider reviewing the resume format"%string])
       ])).

(** The fallback object of the two cover-letter routes. *)
Definition letter_fallback (highlight : string) (responseText : jsstring) : JSValue :=
  let letterContent := JsString.trim (JsString.replace_crlf responseText) in
  JObject [
    (lit "coverLetter", JString letterContent);
    (lit "highlights", strings [highlight]);
    (lit "suggestedImprovements",
      strings ["Consider reviewing and personalizing the generated content"%string])
  ].

(** [/api/generate-cover-letter] *)
Definition cover_letter_normalize (responseText : jsstring) : M unit :=
  try_catch
    (parsedResponse ← parse responseText;
     coverLetter ← read parsedResponse "coverLetter";
     if negb (truthy coverLetter) then throw (new_Error "Invalid response format from AI")
     else
       coverLetter ← read parsedResponse "coverLetter";
       res_json (JObject [ (lit "coverLetter", coverLetter) ]))
    (fun parseError =>
       console_error "Parse error:";;
       res_json
         (letter_fallback "Letter generated based on your resume and job description"
            responseText)).

(** [/api/generate-cover-letter/text] *)
Definition cover_letter_text_normalize (responseText : jsstring) : M unit :=
  try_catch
    (parsedResponse ← parse responseText;
     coverLetter ← read parsedResponse "coverLetter";
     if negb (truthy coverLetter) then throw (new_Error "Invalid response format from AI")
     else
       coverLetter ← read parsedResponse "coverLetter";
       res_json (JObject [
         (lit "success", JBool true);
         (lit "data", JObject [ (lit "coverLetter", coverLetter) ])
       ]))
    (fun parseError =>
       console_error "Parse error:";;
       res_json (JObject [
         (lit "success", JBool true);
         (lit "data",
           letter_fallback "Letter generated based on your background and job description"
             responseText)
       ])).

(** *** Route handlers

    Each handler is [try { ... } catch (error) { ... }], for the two upload
    routes followed by [finally { ... }]; the blocks are named after the
    handler. *)

(** [app.post("/api/ats-check", upload.single("resume"), ...)] *)
Definition ats_check_try (req : Req) : M unit :=
  console_log "Using API key starting with:";;
  file ← match req_file req with
         | None => throw (new_Error "No file uploaded")
         | Some f => mret f
         end;
  set_filePath (Some (path file));;
  console_log "Processing file:";;
  pdfText ← extractTextFromPDF (path file);
  (if blank pdfText then throw (new_Error "Could not extract text from PDF")
   else mret tt);;
  let prompt := ats_prompt (default [] pdfText) in
  console_log "Sending request to Gemini API...";;
  responseText ← call_generate prompt;
  ats_normalize responseText.

Definition ats_check_catch (error : Error) : M unit :=
  console_error "Error in ATS check:";;
  res_status_json 500 (error_payload "Failed to check ATS score" error).

Definition ats_check (req : Req) : M unit :=
  set_filePath None;;
  try_finally
    (try_catch (ats_check_try req) ats_check_catch)
    cleanup_upload.

(** [app.post("/api/generate-cover-letter", upload.single("resume"), ...)] *)
Definition generate_cover_letter_try (req : Req) : M unit :=
  file ← match req_file req with
         | None => throw (new_Error "No resume file uploaded")
         | Some f => mret f
         end;
  jobDescription ← read (req_body req) "jobDescription";
  (if negb (truthy jobDescription) then throw (new_Error "No job description provided")
   else mret tt);;
  set_filePath (Some (path file));;
  resumeText ← extractTextFromPDF (path file);
  (if blank resumeText then throw (new_Error "Could not extract text from resume PDF")
   else mret tt);;
  jobDescription ← read (req_body req) "jobDescription";
  let prompt := cover_letter_prompt (default [] resumeText) jobDescription in
  responseText ← call_generate prompt;
  cover_letter_normalize responseText.

Definition generate_cover_letter_catch (error : Error) : M unit :=
  console_error "Error in cover letter generation:";;
  res_status_json 500 (error_payload "Failed to generate cover letter" error).

Definition generate_cover_letter (req : Req) : M unit :=
  set_filePath None;;
  try_finally
    (try_catch (generate_cover_letter_try req) generate_cover_letter_catch)
    cleanup_upload.

(** [app.post("/api/generate-cover-letter/text", ...)] *)
Definition generate_cover_letter_text_try (req : Req) : M unit :=
  console_log "Received request body:";;
  jobDescription ← read (req_body req) "jobDescription";
  skillsExperience ← read (req_body req) "skillsExperience";
  if negb (truthy jobDescription) || negb (truthy skillsExperience)
  then
    res_status_json 400 (JObject [
      (lit "success", JBool false);
      (lit "error", JString (lit "Both job description and skills/experience are required"))
    ])
  else
    let prompt := cover_letter_text_prompt skillsExperience jobDescription in
    responseText ← call_generate prompt;
    cover_letter_text_normalize responseText.

Definition generate_cover_letter_text_catch (error : Error) : M unit :=
  console_error "Error generating cover letter:";;
  res_status_json 500 (JObject [
    (lit "success", JBool false);
    (lit "error", JString (lit "Failed to generate cover letter"));
    (lit "details", if development then JString (message error) else JUndefined)
  ]).

Definition generate_cover_letter_text (req : Req) : M unit :=
  try_catch (generate_cover_letter_text_try req) generate_cover_letter_text_catch.

End App.

(** ** Vocabulary of the specification *)

(** The property [k] of a parsed value, [undefined] when it cannot be
    read. *)
Definition field (v : JSValue) (k : string) : JSValue :=
  default JUndefined (get v (lit k)).

(** The fields the ATS task requires: a truthy [score] and an array-typed
    [suggestions]. *)
Definition ats_required_fields (v : JSValue) : bool :=
  truthy (field v "score") && isArray (field v "suggestions").

(** The field the cover-letter tasks require: a truthy [coverLetter]. *)
Definition letter_required_fields (v : JSValue) : bool :=
  truthy (field v "coverLetter").

(** A property is absent from a parsed value. *)
Definition absent (v : JSValue) (k : string) : bool :=
  match v with
  | JObject props => negb (existsb (fun kv => JsString.eqb (fst kv) (lit k)) props)
  | _ => true
  end.

(** The strict ATS response in the words of the specification: the parsed
    fields, with the empty sequence for [findings] when it is absent. *)
Definition ats_strict_as_specified (v : JSValue) : JSValue :=
  JObject [
    (lit "score", field v "score");
    (lit "findings", if absent v "findings" then JArray [] else field v "findings");
    (lit "suggestions", field v "suggestions")
  ].

(** The strict ATS response as the handler builds it. *)
Definition ats_strict (v : JSValue) : JSValue :=
  JObject [
    (lit "score", field v "score");
    (lit "findings", js_or (field v "findings") (JArray []));
    (lit "suggestions", field v "suggestions")
  ].

(** The score of the ATS fallback, as the handler computes it. *)
Definition fallback_score (text : jsstring) : spec_float :=
  match JsString.match_digits text with
  | Some m => JsNumber.parseInt m
  | None => JsNumber.of_N 70
  end.

(** The ATS fallback response with a given score. *)
Definition ats_fallback (score : spec_float) : JSValue :=
  JObject [
    (lit "score", JNumber score);
    (lit "findings", strings ["Analysis completed"%string]);
    (lit "suggestions", strings ["Consider reviewing the resume format"%string])
  ].

(** The cover letter of the fallback in the words of the specification:
    the raw text with its line endings normalized, verbatim. *)
Definition letter_as_specified (responseText : jsstring) : jsstring :=
  JsString.replace_crlf responseText.

(** Extracted text that is absent, empty or only white space. *)
Definition no_text (text : option jsstring) : Prop :=
  match text with
  | None => True
  | Some s => Forall (fun c => JsString.isWhiteSpace c = true) s
  end.


(** The response was sent with this status and object. *)
Definition sent (st : State) (code : N) (obj : JSValue) : Prop :=
  res st = Some (mkResponse code obj).

(** The state after [res.status(code).json(obj)]. *)
Definition respond (code : N) (obj : JSValue) (st : State) : State :=
  mkState (fs st) (Some (mkResponse code obj)) (trace st) (filePath st).

(** The state after a line of console output. *)
Definition logged (ev : Event) (st : State) : State :=
  mkState (fs st) (res st) (trace st ++ [ev]) (filePath st).

(** A normalizer answers on a fresh response, whatever the text: it
    returns normally, sends a 200, and touches neither the disk nor the
    collaborators. *)
Definition answers (m : M unit) : Prop :=
  forall st, res st = None ->
  exists obj evs,
    run m st =
      (Normal tt, mkState (fs st) (Some (mkResponse 200 obj)) (trace st ++ evs) (filePath st))
    /\ List.filter isGenerate evs = [].

(** What [cleanupFile p] leaves behind: the file is gone when it could be
    unlinked; otherwise, when the path exists, the error is on the console
    and the disk is as it was. *)
Definition cleaned (p : jsstring) (st : State) : State :=
  match fs st !! p with
  | Some (File _ true) => mkState (delete p (fs st)) (res st) (trace st) (filePath st)
  | Some _ => logged (ConsoleError "Error cleaning up file:") st
  | None => st
  end.

(** The object of an error response of an upload route: the message of the
    failure, or the route's own message when that is empty, and the stack
    in development mode only. *)
Definition error_object {engine : Engine} (fallback : string) (e : Error) : JSValue :=
  JObject [
    (lit "error", JString (if JsString.eqb (message e) [] then lit fallback else message e));
    (lit "details", if development then JString (stack e) else JUndefined)
  ].


Section Taxonomy.

Context {engine : Engine}.

(** What the Text Extractor gives for the file at [p]: its text (which may
    be absent), or [None] for an ExtractionError. *)
Definition extraction (disk : gmap jsstring Node) (p : jsstring) :
    option (option jsstring) :=
  match disk !! p with
  | Some (File data _) =>
      match pdf data with
      | Normal text => Some text
      | Throw _ => None
      end
  | _ => None
  end.

(** The failures of a request to [/api/ats-check], with the error each one
    raises: a missing file (ValidationError), an unreadable PDF or one
    without text (ExtractionError), a failure of the generation collaborator
    (GenerationError). *)
Inductive ats_failure (req : Req) (disk : gmap jsstring Node) : Error -> Prop :=
| ats_missing_file :
    req_file req = None ->
    ats_failure req disk (new_Error "No file uploaded")
| ats_unreadable f :
    req_file req = Some f ->
    extraction disk (path f) = None ->
    ats_failure req disk (new_Error "Failed to extract text from PDF")
| ats_without_text f text :
    req_file req = Some f ->
    extraction disk (path f) = Some text ->
    no_text text ->
    ats_failure req disk (new_Error "Could not extract text from PDF")
| ats_generation f text e :
    req_file req = Some f ->
    extraction disk (path f) = Some text ->
    ~ no_text text ->
    generateContent (ats_prompt (default [] text)) = Throw e ->
    ats_failure req disk e.



End Taxonomy.

(** ** Sample engines and requests *)

Module Demo.

Definition scored : JSValue :=
  JObject [
    (lit "score", JNumber (JsNumber.of_N 82));
    (lit "findings", strings ["Good keyword density"%string]);
    (lit "suggestions", strings ["Add metrics"%string])
  ].

Definition scored_text : jsstring :=
  lit "{" ++ quoted "score" ++ lit ":82," ++ quoted "findings" ++ lit ":["
  ++ quoted "Good keyword density" ++ lit "]," ++ quoted "suggestions" ++ lit ":["
  ++ quoted "Add metrics" ++ lit "]}".

Definition null_findings : JSValue :=
  JObject [
    (lit "score", JNumber (JsNumber.of_N 82));
    (lit "findings", JNull);
    (lit "suggestions", JArray [])
  ].

Definition null_findings_text : jsstring :=
  lit "{" ++ quoted "score" ++ lit ":82," ++ quoted "findings" ++ lit ":null,"
  ++ quoted "suggestions" ++ lit ":[]}".

Definition string_score : JSValue :=
  JObject [
    (lit "score", JString (lit "high"));
    (lit "suggestions", JArray [])
  ].

Definition string_score_text : jsstring :=
  lit "{" ++ quoted "score" ++ lit ":" ++ quoted "high" ++ lit ","
  ++ quoted "suggestions" ++ lit ":[]}".

Definition big_score : JSValue :=
  JObject [
    (lit "score", JNumber (JsNumber.of_N 150));
    (lit "suggestions", JArray [])
  ].

Definition big_score_text : jsstring :=
  lit "{" ++ quoted "score" ++ lit ":150," ++ quoted "suggestions" ++ lit ":[]}".

(** [JSON.parse] on the sample texts; the other texts used below are not
    JSON. *)
Definition parse_samples (text : jsstring) : option JSValue :=
  if JsString.eqb text scored_text then Some scored
  else if JsString.eqb text null_findings_text then Some null_findings
  else if JsString.eqb text string_score_text then Some string_score
  else if JsString.eqb text big_score_text then Some big_score
  else None.

(** The type of a Content-Type value: what comes before the first [;],
    in lower case. *)
Fixpoint lower_type (declared : jsstring) : jsstring :=
  match declared with
  | [] => []
  | c :: rest =>
      if c =? 59 then []
      else (if (65 <=? c) && (c <=? 90) then c + 32 else c) :: lower_type rest
  end.

Definition fault_name (f : Fault) : string :=
  match f with
  | TypeError_read _ _ => "TypeError: Cannot read properties"
  | SyntaxError_JSON _ => "SyntaxError: Unexpected token"
  | ENOENT _ => "ENOENT: no such file or directory"
  | EISDIR _ => "EISDIR: illegal operation on a directory"
  | ENOTDIR _ => "ENOTDIR: not a directory"
  | EEXIST _ => "EEXIST: file already exists"
  | EPERM _ => "EPERM: operation not permitted"
  | ERR_HTTP_HEADERS_SENT => "Cannot set headers after they are sent to the client"
  end.

(** An engine whose PDF parser gives [text], whose model answers [reply],
    and which runs with [NODE_ENV] set to [env]. *)
Definition engine (text : Outcome (option jsstring)) (reply : Outcome jsstring)
    (env : option jsstring) : Engine := {|
  JSON_parse := parse_samples;
  pdf := fun _ => text;
  generateContent := fun _ => reply;
  NODE_ENV := env;
  Date_now := 1700000000000;
  engine_error := fun f => mkError (lit (fault_name f)) (lit "at <anonymous>");
  capture_stack := fun msg => lit "Error: " ++ msg;
  ToString := fun _ => lit "[object Object]";
  busboy_type := lower_type;
  mkdir_fault := fun _ => None;
  unlinkable := fun _ => true
|}.

Definition resume_text : jsstring := lit "Experienced engineer".

(** The engine of a production deployment on a readable PDF. *)
Definition production (reply : jsstring) : Engine :=
  engine (Normal (Some resume_text)) (Normal reply) None.

(** A production deployment whose model answers with a sentence. *)
Definition plain : Engine := production (lit "Your resume scores around 75 out of 100.").

Definition resume_part : FilePart :=
  mkFilePart (lit "resume") (lit "cv.pdf") (lit "application/pdf") 10240 [37; 80; 68; 70].

Definition resume_path : jsstring := lit "uploads/1700000000000-cv.pdf".

Definition sentence : jsstring := lit "Your resume scores around 75 out of 100.".

(** A letter that is not JSON, with Windows line endings between its two
    paragraphs and a line feed at its end. *)
Definition letter_text : jsstring :=
  lit "Dear team," ++ [13; 10; 13; 10] ++ lit "Thanks." ++ [10].

(** [req.file] for [resume_part], and a disk that holds it. *)
Definition resume_file : UploadedFile :=
  mkUploadedFile resume_path (lit "cv.pdf") (lit "application/pdf") 10240.

Definition disk_with_resume : gmap jsstring Node :=
  {[ resume_path := File [37; 80; 68; 70] true ]}.

Definition upload_request : Req := mkReq (Some resume_file) (JObject []).

(** A JSON body without [skillsExperience]. *)
Definition partial_body : JSValue :=
  JObject [ (lit "jobDescription", JString (lit "Backend engineer")) ].



(** An engine whose PDF parser finds only white space. *)
Definition scanned : Engine :=
  engine (Normal (Some (lit "   "))) (Normal sentence) None.

(** An engine whose generation collaborator fails, in development mode. *)
Definition quota_error : Error :=
  mkError (lit "429 Too Many Requests") (lit "at generateContent").

Definition failing : Engine :=
  engine (Normal (Some resume_text)) (Throw quota_error) (Some (lit "development")).

(** A production deployment whose model answers the JSON of the first
    scenario. *)
Definition scorer : Engine := production scored_text.

(** A production deployment whose model writes a letter as JSON. *)
Definition letter_json : JSValue :=
  JObject [ (lit "coverLetter", JString (lit "Dear team, I am glad to apply.")) ].

Definition letter_json_text : jsstring :=
  lit "{" ++ quoted "coverLetter" ++ lit ":" ++ quoted "Dear team, I am glad to apply."
  ++ lit "}".

Definition parse_letters (text : jsstring) : option JSValue :=
  if JsString.eqb text letter_json_text then Some letter_json else None.

Definition writer : Engine := {|
  JSON_parse := parse_letters;
  pdf := fun _ => Normal (Some resume_text);
  generateContent := fun _ => Normal letter_json_text;
  NODE_ENV := None;
  Date_now := 1700000000000;
  engine_error := fun f => mkError (lit (fault_name f)) (lit "at <anonymous>");
  capture_stack := fun msg => lit "Error: " ++ msg;
  ToString := fun _ => lit "[object Object]";
  busboy_type := lower_type;
  mkdir_fault := fun _ => None;
  unlinkable := fun _ => true
|}.


Definition described_request : Req := mkReq (Some resume_file) partial_body.

(** A PDF of exactly 5 MiB. *)
Definition limit_part : FilePart :=
  mkFilePart (lit "resume") (lit "cv.pdf") (lit "application/pdf") (5 * 1024 * 1024)
    [37; 80; 68; 70].



(** A deployment that cannot unlink what it stores, and one that cannot
    create the upload directory. *)
Definition sticky : Engine := {|
  JSON_parse := @JSON_parse plain;
  pdf := @pdf plain;
  generateContent := @generateContent plain;
  NODE_ENV := @NODE_ENV plain;
  Date_now := @Date_now plain;
  engine_error := @engine_error plain;
  capture_stack := @capture_stack plain;
  ToString := @ToString plain;
  busboy_type := @busboy_type plain;
  mkdir_fault := @mkdir_fault plain;
  unlinkable := fun _ => false
|}.

Definition read_only : Engine := {|
  JSON_parse := @JSON_parse plain;
  pdf := @pdf plain;
  generateContent := @generateContent plain;
  NODE_ENV := @NODE_ENV plain;
  Date_now := @Date_now plain;
  engine_error := @engine_error plain;
  capture_stack := @capture_stack plain;
  ToString := @ToString plain;
  busboy_type := @busboy_type plain;
  mkdir_fault := fun p => Some (EPERM p);
  unlinkable := @unlinkable plain
|}.

End Demo.

(** * Properties *)

(** ** Strings and numbers *)

Section StringFacts.

Import JsString.

Lemma isDigit_bounds c : isDigit c = true <-> 48 <= c <= 57.
Proof.
  unfold isDigit. rewrite andb_true_iff, !N.leb_le. tauto.
Qed.

Lemma digit_not_whitespace c : isDigit c = true -> isWhiteSpace c = false.
Proof.
  intros [Hlo Hhi]%isDigit_bounds. unfold isWhiteSpace.
  repeat match goal with
  | |- context [N.eqb c ?k] => destruct (N.eqb_spec c k); [lia |]
  end.
  destruct (N.leb_spec 8192 c); [lia | reflexivity].
Qed.

Lemma trimStart_nil s :
  trimStart s = [] <-> Forall (fun c => isWhiteSpace c = true) s.
Proof.
  induction s as [| c r IH]; simpl.
  - split; [constructor | reflexivity].
  - destruct (isWhiteSpace c) eqn:Hc.
    + rewrite IH. split; [by constructor | by inversion 1].
    + split; [discriminate | inversion 1; congruence].
Qed.

Lemma trimStart_head s c r : trimStart s = c :: r -> isWhiteSpace c = false.
Proof.
  induction s as [| c' r' IH]; simpl; [discriminate |].
  destruct (isWhiteSpace c') eqn:Hc; [exact IH |].
  intros [= -> _]. exact Hc.
Qed.

Lemma trimStart_fixed c r : isWhiteSpace c = false -> trimStart (c :: r) = c :: r.
Proof. intros H. simpl. by rewrite H. Qed.

(** [trim] leaves nothing exactly when every code unit is white space. *)
Lemma trim_nil s : trim s = [] <-> Forall (fun c => isWhiteSpace c = true) s.
Proof.
  unfold trim, trimEnd. split.
  - intros H. apply (f_equal (@rev N)) in H. rewrite rev_involutive in H.
    simpl in H. apply trimStart_nil in H. apply trimStart_nil.
    destruct (trimStart s) as [| c r] eqn:Hs; [reflexivity |].
    apply trimStart_head in Hs.
    apply Forall_rev in H. rewrite rev_involutive in H.
    inversion H; congruence.
  - intros H. apply trimStart_nil in H. by rewrite H.
Qed.

(** The greedy run and what follows it. *)
Lemma digitRun_split s :
  exists post,
    s = digitRun s ++ post /\
    Forall (fun c => isDigit c = true) (digitRun s) /\
    (forall c, head post = Some c -> isDigit c = false).
Proof.
  induction s as [| c r (post & Hs & Hd & Hp)]; simpl.
  - exists []. repeat split; [constructor | discriminate].
  - destruct (isDigit c) eqn:Hc.
    + exists post. simpl. repeat split; [by rewrite <- Hs | by constructor | exact Hp].
    + exists (c :: r). repeat split; [constructor |]. by intros ? [= <-].
Qed.

(** [match(/\d+/)] fails exactly on the texts without a digit. *)
Lemma match_digits_None s :
  match_digits s = None <-> Forall (fun c => isDigit c = false) s.
Proof.
  induction s as [| c r IH]; simpl.
  - split; [constructor | reflexivity].
  - destruct (isDigit c) eqn:Hc.
    + split; [discriminate | inversion 1; congruence].
    + rewrite IH. split; [by constructor | by inversion 1].
Qed.

(** [match(/\d+/)] gives the first maximal run of digits. *)
Lemma match_digits_Some s d :
  match_digits s = Some d ->
  exists pre post,
    s = pre ++ d ++ post /\
    Forall (fun c => isDigit c = false) pre /\
    d <> [] /\
    Forall (fun c => isDigit c = true) d /\
    (forall c, head post = Some c -> isDigit c = false).
Proof.
  induction s as [| c r IH]; simpl; [discriminate |].
  destruct (isDigit c) eqn:Hc.
  - intros [= <-].
    destruct (digitRun_split r) as (post & Hs & Hd & Hp).
    exists [], post. simpl. repeat split.
    + by rewrite <- Hs.
    + constructor.
    + discriminate.
    + by constructor.
    + exact Hp.
  - intros (pre & post & -> & Hpre & Hne & Hd & Hp)%IH.
    exists (c :: pre), post. repeat split; try done. by constructor.
Qed.

Lemma digitValue_decimal c : isDigit c = true -> JsNumber.digitValue 10 c = Some (c - 48).
Proof.
  intros Hc. unfold JsNumber.digitValue.
  fold (isDigit c). rewrite Hc.
  apply isDigit_bounds in Hc.
  destruct (N.ltb_spec (c - 48) 10); [reflexivity | lia].
Qed.

Lemma readDigits_decimal d acc :
  Forall (fun c => isDigit c = true) d ->
  JsNumber.readDigits 10 acc d =
    match d with
    | [] => acc
    | _ => Some (fold_left (fun a c => a * 10 + (c - 48)) d (default 0 acc))
    end.
Proof.
  intros Hd. revert acc. induction Hd as [| c r Hc Hr IH]; intros acc; [reflexivity |].
  simpl. rewrite (digitValue_decimal c Hc), IH.
  destruct r; reflexivity.
Qed.

(** On a run of digits [parseInt] is the Number of the integer the digits
    denote. *)
Lemma parseInt_digits d :
  d <> [] -> Forall (fun c => isDigit c = true) d ->
  JsNumber.parseInt d = JsNumber.of_N (JsNumber.decimal d).
Proof.
  intros Hne Hd. destruct d as [| c r]; [done |].
  pose proof (Forall_inv Hd) as Hc.
  unfold JsNumber.parseInt.
  rewrite (trimStart_fixed c r (digit_not_whitespace c Hc)).
  pose proof (proj1 (isDigit_bounds c) Hc) as Hb.
  destruct (N.eqb_spec c 45); [lia |].
  destruct (N.eqb_spec c 43); [lia |].
  assert (Hradix :
    match c :: r with
    | c0 :: c1 :: r' =>
        if (c0 =? 48) && ((c1 =? 120) || (c1 =? 88)) then (16, r') else (10, c :: r)
    | _ => (10, c :: r)
    end = (10, c :: r)).
  { destruct r as [| c1 r']; [reflexivity |].
    apply Forall_inv_tail, Forall_inv, isDigit_bounds in Hd.
    destruct (N.eqb_spec c1 120); [lia |].
    destruct (N.eqb_spec c1 88); [lia |].
    by rewrite andb_false_r. }
  rewrite Hradix, (readDigits_decimal (c :: r) None Hd).
  reflexivity.
Qed.

(** [replace(/[\r\n]+/g, "\n")], run by run: other code units are kept, and
    a maximal run of carriage returns and line feeds becomes one line
    feed. *)
Lemma replace_crlf_other c s :
  isCRLF c = false -> replace_crlf (c :: s) = c :: replace_crlf s.
Proof. intros Hc. unfold replace_crlf. simpl. by rewrite Hc. Qed.

Lemma replace_runs_resume s :
  (forall c, head s = Some c -> isCRLF c = false) ->
  replace_runs true s = replace_runs false s.
Proof.
  destruct s as [| c r]; [reflexivity |]. intros Hc. simpl.
  by rewrite (Hc c eq_refl).
Qed.

Lemma replace_crlf_run run rest :
  run <> [] ->
  Forall (fun c => isCRLF c = true) run ->
  (forall c, head rest = Some c -> isCRLF c = false) ->
  replace_crlf (run ++ rest) = 10 :: replace_crlf rest.
Proof.
  intros Hne Hrun Hrest. unfold replace_crlf.
  destruct run as [| c run]; [done |].
  apply Forall_cons in Hrun as [Hc Hrun]. simpl. rewrite Hc. f_equal.
  clear Hne Hc. induction Hrun as [| c' run' Hc' _ IH]; simpl.
  - by apply replace_runs_resume.
  - rewrite Hc'. exact IH.
Qed.

(** *** The text of the fallback letter *)

Lemma isCRLF_whitespace c : isCRLF c = true -> isWhiteSpace c = true.
Proof.
  unfold isCRLF, isWhiteSpace. intros [->%N.eqb_eq | ->%N.eqb_eq]%orb_true_iff; reflexivity.
Qed.

Lemma replace_runs_no_cr f s : Forall (fun c => c <> 13) (replace_runs f s).
Proof.
  revert f. induction s as [| c r IH]; intros f; simpl; [constructor |].
  destruct (isCRLF c) eqn:Hc.
  - destruct f; [apply IH | constructor; [done | apply IH]].
  - constructor; [| apply IH]. intros ->. discriminate.
Qed.

Lemma replace_runs_resumed_head s c :
  head (replace_runs true s) = Some c -> isCRLF c = false.
Proof.
  induction s as [| c' r IH]; simpl; [discriminate |].
  destruct (isCRLF c') eqn:Hc; [exact IH |].
  by intros [= <-].
Qed.

(** After a line feed of the result comes no other line feed. *)
Lemma replace_runs_single_lf f s a b :
  replace_runs f s = a ++ 10 :: b ->
  forall c, head b = Some c -> isCRLF c = false.
Proof.
  revert f a. induction s as [| c r IH]; intros f a; simpl.
  - by destruct a.
  - destruct (isCRLF c) eqn:Hc.
    + destruct f; [apply IH |].
      destruct a as [| x a']; simpl.
      * intros [= <-]. apply replace_runs_resumed_head.
      * intros [= _ H]. by apply (IH true a').
    + destruct a as [| x a']; simpl.
      * intros [= -> _]. discriminate.
      * intros [= _ H]. by apply (IH false a').
Qed.

Lemma replace_crlf_unchanged s :
  Forall (fun c => isCRLF c = false) s -> replace_crlf s = s.
Proof.
  unfold replace_crlf. induction 1 as [| c r Hc _ IH]; simpl; [reflexivity |].
  by rewrite Hc, IH.
Qed.

Lemma trimStart_split s :
  exists a, s = a ++ trimStart s /\ Forall (fun c => isWhiteSpace c = true) a.
Proof.
  induction s as [| c r (a & Hs & Ha)]; simpl.
  - by exists [].
  - destruct (isWhiteSpace c) eqn:Hc.
    + exists (c :: a). simpl. split; [by rewrite <- Hs | by constructor].
    + by exists [].
Qed.

(** [trim] cuts white space off both ends and nothing else. *)
Lemma trim_split s :
  exists a b,
    s = a ++ trim s ++ b /\
    Forall (fun c => isWhiteSpace c = true) a /\
    Forall (fun c => isWhiteSpace c = true) b.
Proof.
  destruct (trimStart_split s) as (a & Hs & Ha).
  destruct (trimStart_split (rev (trimStart s))) as (b & Hr & Hb).
  exists a, (rev b). unfold trim, trimEnd. repeat split; [| done | by apply Forall_rev].
  rewrite <- rev_app_distr, <- Hr, rev_involutive. exact Hs.
Qed.

Lemma trim_ends s :
  (forall c, head (trim s) = Some c -> isWhiteSpace c = false) /\
  (forall c, last (trim s) = Some c -> isWhiteSpace c = false).
Proof.
  assert (Hlast : forall c, last (trim s) = Some c -> isWhiteSpace c = false).
  { unfold trim, trimEnd. intros c.
    destruct (trimStart (rev (trimStart s))) as [| x l] eqn:Ht; [discriminate |].
    simpl. rewrite last_snoc. intros [= <-]. by apply trimStart_head in Ht. }
  split; [| exact Hlast].
  intros c Hc.
  destruct (trimStart_split (rev (trimStart s))) as (b & Hr & Hb).
  apply (f_equal (@rev N)) in Hr. rewrite rev_involutive, rev_app_distr in Hr.
  fold (trimEnd (trimStart s)) in Hr. fold (trim s) in Hr.
  destruct (trim s) as [| x l] eqn:Ht; [discriminate |].
  injection Hc as ->. simpl in Hr.
  by apply trimStart_head in Hr.
Qed.

(** *** The stored file name *)

Lemma split_at_first (c : N) (u v x y : jsstring) :
  Forall (fun d => d <> c) u -> Forall (fun d => d <> c) v ->
  u ++ c :: x = v ++ c :: y -> u = v /\ x = y.
Proof.
  intros Hu. revert v. induction Hu as [| d u Hd _ IH]; intros v Hv; simpl.
  - destruct Hv as [| e v He _]; simpl; [by intros [= ->] |].
    intros [= <- _]. done.
  - destruct Hv as [| e v He Hv]; simpl; [by intros [= -> _] |].
    intros [= -> H]. destruct (IH v Hv H) as [-> ->]. done.
Qed.

Lemma string_of_uint_digits d :
  Forall (fun c => isDigit c = true) (lit (NilEmpty.string_of_uint d)).
Proof.
  unfold lit. induction d; simpl; constructor; done.
Qed.

Lemma lit_inj a b : lit a = lit b -> a = b.
Proof.
  unfold lit. revert b. induction a as [| x a IH]; intros [| y b]; simpl; try done.
  intros [= Hx H]. f_equal; [| by apply IH].
  rewrite <- (ascii_N_embedding x), <- (ascii_N_embedding y). by rewrite Hx.
Qed.

Lemma to_uint_nonnil n : N.to_uint n <> Decimal.Nil.
Proof.
  intros H. pose proof (DecimalN.Unsigned.of_to n) as Hn. rewrite H in Hn.
  simpl in Hn. subst n. discriminate.
Qed.

(** The decimal rendering is made of digits and tells the number. *)
Lemma of_N_digits n : Forall (fun c => isDigit c = true) (of_N n).
Proof.
  unfold of_N, NilZero.string_of_uint.
  pose proof (to_uint_nonnil n) as Hn.
  destruct (N.to_uint n) eqn:Hd; try done; rewrite <- Hd; apply string_of_uint_digits.
Qed.

Lemma of_N_inj a b : of_N a = of_N b -> a = b.
Proof.
  unfold of_N. intros H%lit_inj.
  apply DecimalN.Unsigned.to_uint_inj.
  pose proof (NilZero.usu _ (to_uint_nonnil a)) as Ha.
  pose proof (NilZero.usu _ (to_uint_nonnil b)) as Hb.
  rewrite H in Ha. congruence.
Qed.

(** *** Reading back a rendered number *)

Lemma decimal_acc d acc :
  fold_left (fun a c => a * 10 + (c - 48)) (lit (NilEmpty.string_of_uint d)) (Npos acc)
  = Npos (Pos.of_uint_acc d acc).
Proof.
  revert acc. induction d; intros acc; [reflexivity | ..];
    cbn [NilEmpty.string_of_uint Pos.of_uint_acc]; unfold lit in *;
    cbn [list_ascii_of_string List.map fold_left]; rewrite <- IHd; f_equal;
    vm_compute N_of_ascii; lia.
Qed.

Lemma decimal_string d :
  JsNumber.decimal (lit (NilEmpty.string_of_uint d)) = N.of_uint d.
Proof.
  unfold JsNumber.decimal, N.of_uint.
  induction d; [reflexivity | ..];
    cbn [NilEmpty.string_of_uint Pos.of_uint]; unfold lit in *;
    cbn [list_ascii_of_string List.map fold_left];
    [exact IHd | apply (decimal_acc d) ..].
Qed.

(** [parseInt] reads back what the decimal rendering wrote. *)
Lemma decimal_of_N n : JsNumber.decimal (of_N n) = n.
Proof.
  unfold of_N, NilZero.string_of_uint.
  pose proof (to_uint_nonnil n) as Hn.
  rewrite <- (DecimalN.Unsigned.of_to n) at 2.
  destruct (N.to_uint n) eqn:Hd; try done; apply decimal_string.
Qed.

Lemma of_N_nonempty n : of_N n <> [].
Proof.
  unfold of_N, NilZero.string_of_uint.
  pose proof (to_uint_nonnil n) as Hn.
  destruct (N.to_uint n); done.
Qed.

Lemma digitRun_prefix d post :
  Forall (fun c => isDigit c = true) d ->
  (forall c, head post = Some c -> isDigit c = false) ->
  digitRun (d ++ post) = d.
Proof.
  intros Hd Hpost. induction Hd as [| c r Hc _ IH]; simpl.
  - destruct post as [| c r]; [reflexivity |]. simpl. by rewrite (Hpost c eq_refl).
  - by rewrite Hc, IH.
Qed.

(** [match(/\d+/)] finds a run of digits that no digit precedes or
    follows. *)
Lemma match_digits_first before d after :
  Forall (fun c => isDigit c = false) before ->
  d <> [] ->
  Forall (fun c => isDigit c = true) d ->
  (forall c, head after = Some c -> isDigit c = false) ->
  match_digits (before ++ d ++ after) = Some d.
Proof.
  intros Hb Hne Hd Ha. induction Hb as [| c r Hc _ IH]; simpl.
  - destruct d as [| c r]; [done |]. simpl.
    rewrite (Forall_inv Hd). f_equal.
    by rewrite (digitRun_prefix r after (Forall_inv_tail Hd) Ha).
  - by rewrite Hc.
Qed.

(** *** Normalizing twice *)

Lemma replace_crlf_fixed s :
  Forall (fun c => c <> 13) s ->
  (forall a b, s = a ++ 10 :: b -> forall c, head b = Some c -> isCRLF c = false) ->
  replace_crlf s = s.
Proof.
  unfold replace_crlf. induction s as [| c r IH]; intros Hcr Hlf; [reflexivity |].
  apply Forall_cons in Hcr as [Hc Hcr].
  assert (Hr : replace_runs false r = r).
  { apply IH; [exact Hcr |]. intros a b -> x Hx. by apply (Hlf (c :: a) b). }
  simpl. destruct (isCRLF c) eqn:Hcrlf.
  - assert (c = 10) as ->.
    { unfold isCRLF in Hcrlf. apply orb_true_iff in Hcrlf as [H%N.eqb_eq | H%N.eqb_eq]; done. }
    f_equal. rewrite replace_runs_resume; [exact Hr |].
    intros x Hx. by apply (Hlf [] r).
  - by rewrite Hr.
Qed.

Lemma trim_fixed s :
  (forall c, head s = Some c -> isWhiteSpace c = false) ->
  (forall c, last s = Some c -> isWhiteSpace c = false) ->
  trim s = s.
Proof.
  intros Hhead Hlast. unfold trim, trimEnd.
  assert (trimStart s = s) as ->.
  { destruct s as [| c r]; [reflexivity |]. apply trimStart_fixed. by apply Hhead. }
  destruct (rev s) as [| x l] eqn:Hrev.
  - apply (f_equal (@rev N)) in Hrev. by rewrite rev_involutive in Hrev.
  - apply (f_equal (@rev N)) in Hrev. rewrite rev_involutive in Hrev. simpl in Hrev.
    rewrite trimStart_fixed; [by rewrite Hrev |].
    apply Hlast. rewrite Hrev. apply last_snoc.
Qed.

End StringFacts.

(** ** The monad and the normalizers *)

Section Properties.

Context {engine : Engine}.

Ltac unfold_monad :=
  unfold run, try_catch, try_finally, throw, fault, parse, read, res_json,
    res_status_json, console_log, console_error, emit, set_filePath,
    get_filePath, existsSync, call_generate, call_pdf, mbind, M_bind, mret, M_ret.

Ltac reduce := cbn beta iota.

Lemma run_bind {A B} (m : M A) (k : A -> M B) st :
  run (m ≫= k) st =
    match run m st with
    | (Normal a, st') => run (k a) st'
    | (Throw e, st') => (Throw e, st')
    end.
Proof. reflexivity. Qed.

Lemma eqb_true (a b : jsstring) : JsString.eqb a b = true <-> a = b.
Proof. unfold JsString.eqb. apply bool_decide_eq_true. Qed.

Lemma eqb_false (a b : jsstring) : JsString.eqb a b = false <-> a <> b.
Proof. unfold JsString.eqb. apply bool_decide_eq_false. Qed.

(** The source's test for missing text is the specification's. *)
Lemma blank_iff text : blank text = true <-> no_text text.
Proof.
  destruct text as [s |]; simpl; [| tauto].
  rewrite orb_true_iff, eqb_true, N.eqb_eq, <- trim_nil.
  split.
  - intros [-> | H]; [reflexivity |].
    destruct (JsString.trim s); [reflexivity | discriminate].
  - intros ->. by right.
Qed.

Lemma blank_false text : blank text = false <-> ~ no_text text.
Proof.
  rewrite <- blank_iff. destruct (blank text); split; congruence.
Qed.

(** [error.message || fallback] written out. *)
Lemma error_payload_object fallback e :
  error_payload fallback e = error_object fallback e.
Proof.
  unfold error_payload, error_object, js_or. simpl.
  by destruct (JsString.eqb (message e) []).
Qed.

(** A value one property of which can be read has all its properties
    readable. *)
Lemma get_readable v k x k' : get v k = Some x -> get v k' = Some (default JUndefined (get v k')).
Proof. destruct v; simpl; congruence. Qed.

(** State A of the ATS normalizer. *)
Lemma ats_normalize_strict text v st :
  JSON_parse text = Some v -> ats_required_fields v = true -> res st = None ->
  run (ats_normalize text) st = (Normal tt, respond 200 (ats_strict v) st).
Proof.
  intros Hparse Hreq Hres.
  unfold ats_required_fields, ats_strict, field in *.
  apply andb_true_iff in Hreq as [Hscore Hsugg].
  destruct (get v (lit "score")) as [score |] eqn:Hs; [| discriminate].
  destruct (get v (lit "suggestions")) as [sugg |] eqn:Hg; [| discriminate].
  rewrite (get_readable v _ _ (lit "findings") Hs).
  simpl in Hscore, Hsugg.
  unfold ats_normalize. unfold_monad.
  rewrite Hparse. reduce. rewrite Hs. reduce. rewrite Hscore. cbn [negb]. reduce.
  rewrite Hg. reduce. rewrite Hsugg. cbn [negb]. reduce.
  rewrite (get_readable v _ _ (lit "findings") Hs). reduce.
  rewrite Hres. reflexivity.
Qed.

(** State B of the ATS normalizer. *)
Lemma ats_normalize_fallback text st :
  (forall v, JSON_parse text = Some v -> ats_required_fields v = false) ->
  res st = None ->
  run (ats_normalize text) st =
    (Normal tt,
     respond 200 (ats_fallback (fallback_score text))
       (logged (ConsoleError "Parse error:") st)).
Proof.
  intros Hreq Hres.
  unfold ats_normalize. unfold_monad.
  destruct (JSON_parse text) as [v |] eqn:Hparse; reduce.
  - specialize (Hreq v eq_refl). unfold ats_required_fields, field in Hreq.
    destruct (get v (lit "score")) as [score |] eqn:Hs; reduce.
    + rewrite (get_readable v _ _ (lit "suggestions") Hs) in *.
      simpl in Hreq.
      destruct (truthy score); cbn [negb]; reduce.
      * simpl in Hreq. rewrite Hreq. cbn [negb]. reduce.
        simpl. rewrite Hres. reflexivity.
      * simpl. rewrite Hres. reflexivity.
    + simpl. rewrite Hres. reflexivity.
  - simpl. rewrite Hres. reflexivity.
Qed.

(** State A and state B of the normalizer of [/api/generate-cover-letter]. *)
Lemma cover_letter_normalize_strict text v st :
  JSON_parse text = Some v -> letter_required_fields v = true -> res st = None ->
  run (cover_letter_normalize text) st =
    (Normal tt, respond 200 (JObject [(lit "coverLetter", field v "coverLetter")]) st).
Proof.
  intros Hparse Hreq Hres.
  unfold letter_required_fields, field in *.
  destruct (get v (lit "coverLetter")) as [letter |] eqn:Hl; [| discriminate].
  simpl in Hreq.
  unfold cover_letter_normalize. unfold_monad.
  rewrite Hparse. reduce. rewrite Hl. reduce. rewrite Hreq. cbn [negb]. reduce.
  rewrite Hres. reflexivity.
Qed.

Lemma cover_letter_normalize_fallback text st :
  (forall v, JSON_parse text = Some v -> letter_required_fields v = false) ->
  res st = None ->
  run (cover_letter_normalize text) st =
    (Normal tt,
     respond 200
       (letter_fallback "Letter generated based on your resume and job description" text)
       (logged (ConsoleError "Parse error:") st)).
Proof.
  intros Hreq Hres.
  unfold cover_letter_normalize. unfold_monad.
  destruct (JSON_parse text) as [v |] eqn:Hparse; reduce.
  - specialize (Hreq v eq_refl). unfold letter_required_fields, field in Hreq.
    destruct (get v (lit "coverLetter")) as [letter |] eqn:Hl; reduce.
    + simpl in Hreq. rewrite Hreq. cbn [negb]. reduce.
      simpl. rewrite Hres. reflexivity.
    + simpl. rewrite Hres. reflexivity.
  - simpl. rewrite Hres. reflexivity.
Qed.

(** State A and state B of the normalizer of
    [/api/generate-cover-letter/text]. *)
Lemma cover_letter_text_normalize_strict text v st :
  JSON_parse text = Some v -> letter_required_fields v = true -> res st = None ->
  run (cover_letter_text_normalize text) st =
    (Normal tt,
     respond 200
       (JObject [
          (lit "success", JBool true);
          (lit "data", JObject [(lit "coverLetter", field v "coverLetter")])
        ]) st).
Proof.
  intros Hparse Hreq Hres.
  unfold letter_required_fields, field in *.
  destruct (get v (lit "coverLetter")) as [letter |] eqn:Hl; [| discriminate].
  simpl in Hreq.
  unfold cover_letter_text_normalize. unfold_monad.
  rewrite Hparse. reduce. rewrite Hl. reduce. rewrite Hreq. cbn [negb]. reduce.
  rewrite Hres. reflexivity.
Qed.

Lemma cover_letter_text_normalize_fallback text st :
  (forall v, JSON_parse text = Some v -> letter_required_fields v = false) ->
  res st = None ->
  run (cover_letter_text_normalize text) st =
    (Normal tt,
     respond 200
       (JObject [
          (lit "success", JBool true);
          (lit "data",
            letter_fallback "Letter generated based on your background and job description"
              text)
        ])
       (logged (ConsoleError "Parse error:") st)).
Proof.
  intros Hreq Hres.
  unfold cover_letter_text_normalize. unfold_monad.
  destruct (JSON_parse text) as [v |] eqn:Hparse; reduce.
  - specialize (Hreq v eq_refl). unfold letter_required_fields, field in Hreq.
    destruct (get v (lit "coverLetter")) as [letter |] eqn:Hl; reduce.
    + simpl in Hreq. rewrite Hreq. cbn [negb]. reduce.
      simpl. rewrite Hres. reflexivity.
    + simpl. rewrite Hres. reflexivity.
  - simpl. rewrite Hres. reflexivity.
Qed.

Lemma decide_fields (required : JSValue -> bool) text :
  (exists v, JSON_parse text = Some v /\ required v = true) \/
  (forall v, JSON_parse text = Some v -> required v = false).
Proof.
  destruct (JSON_parse text) as [v |]; [| by right].
  destruct (required v) eqn:Hr; [left; eauto | right].
  by intros ? [= <-].
Qed.

Lemma ats_normalize_answers text : answers (ats_normalize text).
Proof.
  intros st Hres.
  destruct (decide_fields ats_required_fields text) as [(v & Hp & Hr) | Hno].
  - rewrite (ats_normalize_strict text v st Hp Hr Hres).
    eexists _, []. rewrite app_nil_r. split; reflexivity.
  - rewrite (ats_normalize_fallback text st Hno Hres).
    eexists _, [_]. split; reflexivity.
Qed.

Lemma cover_letter_normalize_answers text : answers (cover_letter_normalize text).
Proof.
  intros st Hres.
  destruct (decide_fields letter_required_fields text) as [(v & Hp & Hr) | Hno].
  - rewrite (cover_letter_normalize_strict text v st Hp Hr Hres).
    eexists _, []. rewrite app_nil_r. split; reflexivity.
  - rewrite (cover_letter_normalize_fallback text st Hno Hres).
    eexists _, [_]. split; reflexivity.
Qed.

(** ** Cleanup and extraction *)

Lemma run_cleanupFile p st : run (cleanupFile p) st = (Normal tt, cleaned p st).
Proof.
  unfold cleanupFile, cleaned, unlinkSync. unfold_monad.
  destruct (fs st !! p) as [node |] eqn:Hnode.
  - rewrite bool_decide_eq_true_2 by eauto. reduce. rewrite Hnode.
    by destruct node as [data [|] |].
  - rewrite bool_decide_eq_false_2 by (by intros [? ?]). reflexivity.
Qed.

Lemma run_cleanup_upload st :
  run cleanup_upload st =
    (Normal tt,
     if path_truthy (filePath st) then cleaned (default [] (filePath st)) st else st).
Proof.
  unfold cleanup_upload, get_filePath. unfold_monad. reduce.
  destruct (path_truthy (filePath st)); [apply run_cleanupFile | reflexivity].
Qed.

Lemma run_extractTextFromPDF p st :
  exists evs,
    run (extractTextFromPDF p) st =
      (match extraction (fs st) p with
       | Some text => Normal text
       | None => Throw (new_Error "Failed to extract text from PDF")
       end,
       mkState (fs st) (res st) (trace st ++ evs) (filePath st))
    /\ List.filter isGenerate evs = [].
Proof.
  unfold extractTextFromPDF, extraction, readFileSync. unfold_monad.
  destruct (fs st !! p) as [[data rm |] |]; reduce.
  - destruct (pdf data) as [text | e]; reduce.
    + by exists [PdfParse data].
    + exists [PdfParse data; ConsoleError "PDF extraction error:"].
      simpl. by rewrite <- app_assoc.
  - by exists [ConsoleError "PDF extraction error:"].
  - by exists [ConsoleError "PDF extraction error:"].
Qed.

Lemma res_cleaned p st : res (cleaned p st) = res st.
Proof. unfold cleaned. by destruct (fs st !! p) as [[data [|] |] |]. Qed.

Lemma generation_calls_cleaned p st :
  generation_calls (cleaned p st) = generation_calls st.
Proof.
  unfold cleaned, generation_calls.
  destruct (fs st !! p) as [[data [|] |] |]; simpl; try reflexivity;
    by rewrite List.filter_app, app_nil_r.
Qed.

(** ** [/api/ats-check] *)

(** The extraction step of a [try] block, once the monad is unfolded. *)
Ltac extract_step :=
  match goal with
  | |- context [extractTextFromPDF ?p ?s] =>
      let evs := fresh "evs" in
      let Hx := fresh "Hx" in
      let Hg := fresh "Hg" in
      destruct (run_extractTextFromPDF p s) as (evs & Hx & Hg);
      unfold run in Hx; rewrite Hx; clear Hx;
      cbn [fs res trace filePath]
  end.

Lemma ats_try_missing_file req st :
  req_file req = None ->
  exists evs,
    run (ats_check_try req) st =
      (Throw (new_Error "No file uploaded"),
       mkState (fs st) (res st) (trace st ++ evs) (filePath st))
    /\ List.filter isGenerate evs = [].
Proof.
  intros Hfile. unfold ats_check_try. unfold_monad. rewrite Hfile. reduce.
  by eexists [_].
Qed.

Lemma ats_try_unreadable req st f :
  req_file req = Some f ->
  extraction (fs st) (path f) = None ->
  exists evs,
    run (ats_check_try req) st =
      (Throw (new_Error "Failed to extract text from PDF"),
       mkState (fs st) (res st) (trace st ++ evs) (Some (path f)))
    /\ List.filter isGenerate evs = [].
Proof.
  intros Hfile Hx. unfold ats_check_try. unfold_monad. rewrite Hfile. reduce.
  extract_step. rewrite Hx. reduce.
  eexists. cbn [fs res trace filePath]. rewrite <- !app_assoc. split; [reflexivity |].
  by rewrite !List.filter_app, Hg.
Qed.

Lemma ats_try_without_text req st f text :
  req_file req = Some f ->
  extraction (fs st) (path f) = Some text ->
  no_text text ->
  exists evs,
    run (ats_check_try req) st =
      (Throw (new_Error "Could not extract text from PDF"),
       mkState (fs st) (res st) (trace st ++ evs) (Some (path f)))
    /\ List.filter isGenerate evs = [].
Proof.
  intros Hfile Hx Hblank%blank_iff. unfold ats_check_try. unfold_monad.
  rewrite Hfile. reduce.
  extract_step. rewrite Hx. reduce. rewrite Hblank. reduce.
  eexists. cbn [fs res trace filePath]. rewrite <- !app_assoc. split; [reflexivity |].
  by rewrite !List.filter_app, Hg.
Qed.

Lemma ats_try_generation req st f text e :
  req_file req = Some f ->
  extraction (fs st) (path f) = Some text ->
  ~ no_text text ->
  generateContent (ats_prompt (default [] text)) = Throw e ->
  exists evs,
    run (ats_check_try req) st =
      (Throw e, mkState (fs st) (res st) (trace st ++ evs) (Some (path f))).
Proof.
  intros Hfile Hx Hblank%blank_false Hgen. unfold ats_check_try. unfold_monad.
  rewrite Hfile. reduce.
  extract_step. rewrite Hx. reduce. rewrite Hblank. reduce. rewrite Hgen. reduce.
  eexists. cbn [fs res trace filePath]. rewrite <- !app_assoc. reflexivity.
Qed.

Lemma ats_try_generated req st f text responseText :
  req_file req = Some f ->
  extraction (fs st) (path f) = Some text ->
  ~ no_text text ->
  generateContent (ats_prompt (default [] text)) = Normal responseText ->
  exists evs,
    run (ats_check_try req) st =
      run (ats_normalize responseText)
        (mkState (fs st) (res st) (trace st ++ evs) (Some (path f))).
Proof.
  intros Hfile Hx Hblank%blank_false Hgen. unfold ats_check_try. unfold_monad.
  rewrite Hfile. reduce.
  extract_step. rewrite Hx. reduce. rewrite Hblank. reduce. rewrite Hgen. reduce.
  eexists. cbn [fs res trace filePath]. rewrite <- !app_assoc. reflexivity.
Qed.

(** Every request to [/api/ats-check] is one of the four failures or gets
    a text from the generation collaborator. *)
Lemma ats_cases req st :
  (exists e, ats_failure req (fs st) e) \/
  (exists f text responseText,
     req_file req = Some f /\
     extraction (fs st) (path f) = Some text /\
     ~ no_text text /\
     generateContent (ats_prompt (default [] text)) = Normal responseText).
Proof.
  destruct (req_file req) as [f |] eqn:Hfile; [| left; eexists; by constructor].
  destruct (extraction (fs st) (path f)) as [text |] eqn:Hx;
    [| left; eexists; by eapply ats_unreadable].
  destruct (blank text) eqn:Hb.
  { apply blank_iff in Hb. left; eexists; by eapply ats_without_text. }
  apply blank_false in Hb.
  destruct (generateContent (ats_prompt (default [] text))) as [responseText | e] eqn:Hgen.
  - right. by exists f, text, responseText.
  - left. exists e. by eapply ats_generation.
Qed.


(** ** The shape of the two upload handlers *)

(** The state in which an upload handler ends after its [catch] answered
    the error [e]: the 500 response, the console line of the [catch], and
    the cleanup of the path held by [filePath]. *)
Lemma upload_handler_failure (T : M unit) label fallback st e evs fp :
  res st = None ->
  run T (mkState (fs st) (res st) (trace st) None) =
    (Throw e, mkState (fs st) (res st) (trace st ++ evs) fp) ->
  run (set_filePath None;;
       try_finally
         (try_catch T
            (fun error =>
               console_error label;;
               res_status_json 500 (error_payload fallback error)))
         cleanup_upload) st =
    (Normal tt,
     let st2 :=
       mkState (fs st) (Some (mkResponse 500 (error_payload fallback e)))
         (trace st ++ evs ++ [ConsoleError label]) fp in
     if path_truthy fp then cleaned (default [] fp) st2 else st2).
Proof.
  intros Hres HT. unfold run in HT.
  unfold_monad. reduce. rewrite HT. reduce. cbn [fs res trace filePath].
  rewrite Hres. reduce.
  pose proof (run_cleanup_upload
    (mkState (fs st) (Some (mkResponse 500 (error_payload fallback e)))
       ((trace st ++ evs) ++ [ConsoleError label]) fp)) as Hc.
  unfold run in Hc. rewrite Hc. cbn [filePath]. by rewrite <- app_assoc.
Qed.

(** The state in which an upload handler ends when its [try] block
    completed. *)
Lemma upload_handler_success (T : M unit) (C : Error -> M unit) st st1 :
  run T (mkState (fs st) (res st) (trace st) None) = (Normal tt, st1) ->
  run (set_filePath None;; try_finally (try_catch T C) cleanup_upload) st =
    (Normal tt,
     if path_truthy (filePath st1) then cleaned (default [] (filePath st1)) st1 else st1).
Proof.
  intros HT. unfold run in HT.
  pose proof (run_cleanup_upload st1) as Hc. unfold run in Hc.
  unfold_monad. reduce. rewrite HT. reduce. rewrite Hc. reflexivity.
Qed.

Lemma fs_cleaned p st st' : fs st = fs st' -> fs (cleaned p st) = fs (cleaned p st').
Proof.
  intros H. unfold cleaned. rewrite <- H.
  by destruct (fs st !! p) as [[data [|] |] |].
Qed.


(** A PDF without text is answered before the generation collaborator is
    called. *)
Lemma ats_check_without_text req st f text :
  res st = None ->
  req_file req = Some f ->
  extraction (fs st) (path f) = Some text ->
  no_text text ->
  exists st',
    run (ats_check req) st = (Normal tt, st') /\
    sent st' 500
      (error_object "Failed to check ATS score"
         (new_Error "Could not extract text from PDF")) /\
    generation_calls st' = generation_calls st.
Proof.
  intros Hres Hfile Hx Hno.
  destruct (ats_try_without_text req (mkState (fs st) (res st) (trace st) None)
              f text Hfile Hx Hno) as (evs & HT & Hg).
  cbn [fs res trace filePath] in HT.
  unfold ats_check, ats_check_catch.
  rewrite (upload_handler_failure _ _ _ st _ evs _ Hres HT).
  eexists. split; [reflexivity |].
  cbn zeta. rewrite <- error_payload_object.
  assert (Hcalls : forall fp obj,
    generation_calls (mkState (fs st) obj (trace st ++ evs ++ [ConsoleError "Error in ATS check:"]) fp)
    = generation_calls st).
  { intros. unfold generation_calls. cbn [trace].
    rewrite !List.filter_app, Hg. simpl. by rewrite app_nil_r. }
  destruct (path_truthy (Some (path f))).
  - split; [by unfold sent; rewrite res_cleaned |].
    by rewrite generation_calls_cleaned, Hcalls.
  - split; [reflexivity | apply Hcalls].
Qed.

(** On every exit of [/api/ats-check] with an upload, the cleanup ran on
    the uploaded file, after the response was sent. *)
Lemma ats_check_cleans_upload req st f :
  res st = None ->
  req_file req = Some f ->
  path f <> [] ->
  exists st',
    run (ats_check req) st = (Normal tt, st') /\
    is_Some (res st') /\
    fs st' = fs (cleaned (path f) st).
Proof.
  intros Hres Hfile Hpath.
  assert (Htruthy : path_truthy (Some (path f)) = true).
  { simpl. by rewrite (proj2 (eqb_false _ _) Hpath). }
  set (st0 := mkState (fs st) (res st) (trace st) None).
  destruct (ats_cases req st0) as [[e Hfail] | (f' & text & responseText & Hf & Hx & Hno & Hgen)].
  - assert (exists evs,
      run (ats_check_try req) st0 =
        (Throw e, mkState (fs st) (res st) (trace st ++ evs) (Some (path f)))) as [evs HT].
    { destruct Hfail as [Hnone | g Hg Hx | g text Hg Hx Hno | g text e' Hg Hx Hno Hgen];
        [congruence | | |]; assert (g = f) as -> by congruence.
      - destruct (ats_try_unreadable req st0 f Hg Hx) as (evs & HT & _). eauto.
      - destruct (ats_try_without_text req st0 f text Hg Hx Hno) as (evs & HT & _). eauto.
      - destruct (ats_try_generation req st0 f text e' Hg Hx Hno Hgen) as (evs & HT). eauto. }
    unfold ats_check, ats_check_catch.
    rewrite (upload_handler_failure _ _ _ st e evs _ Hres HT).
    eexists. split; [reflexivity |]. cbn zeta. rewrite Htruthy.
    split; [rewrite res_cleaned; eauto | by apply fs_cleaned].
  - assert (f' = f) as -> by congruence.
    destruct (ats_try_generated req st0 f text responseText Hf Hx Hno Hgen) as (evs & HT).
    subst st0. cbn [fs res trace filePath] in HT.
    destruct (ats_normalize_answers responseText
                (mkState (fs st) (res st) (trace st ++ evs) (Some (path f))) Hres)
      as (obj & evs' & HN & _).
    cbn [fs res trace filePath] in HN. rewrite HN in HT.
    unfold ats_check.
    rewrite (upload_handler_success _ _ st _ HT).
    eexists. split; [reflexivity |]. cbn [filePath]. rewrite Htruthy.
    split; [rewrite res_cleaned; eauto | by apply fs_cleaned].
Qed.

(** ** [/api/generate-cover-letter] *)

Lemma letter_try_missing_file req st :
  req_file req = None ->
  run (generate_cover_letter_try req) st = (Throw (new_Error "No resume file uploaded"), st).
Proof.
  intros Hfile. unfold generate_cover_letter_try. unfold_monad. by rewrite Hfile.
Qed.

Lemma letter_try_unreadable_body req st f :
  req_file req = Some f ->
  get (req_body req) (lit "jobDescription") = None ->
  run (generate_cover_letter_try req) st =
    (Throw (engine_error (TypeError_read (req_body req) (lit "jobDescription"))), st).
Proof.
  intros Hfile Hjd. unfold generate_cover_letter_try. unfold_monad.
  rewrite Hfile. reduce. by rewrite Hjd.
Qed.

(** Without a job description the [try] block throws before [filePath]
    is assigned. *)
Lemma letter_try_missing_description req st f jd :
  req_file req = Some f ->
  get (req_body req) (lit "jobDescription") = Some jd ->
  truthy jd = false ->
  run (generate_cover_letter_try req) st =
    (Throw (new_Error "No job description provided"), st).
Proof.
  intros Hfile Hjd Hfalsy. unfold generate_cover_letter_try. unfold_monad.
  rewrite Hfile. reduce. rewrite Hjd. reduce. by rewrite Hfalsy.
Qed.

Lemma letter_try_unreadable req st f jd :
  req_file req = Some f ->
  get (req_body req) (lit "jobDescription") = Some jd ->
  truthy jd = true ->
  extraction (fs st) (path f) = None ->
  exists evs,
    run (generate_cover_letter_try req) st =
      (Throw (new_Error "Failed to extract text from PDF"),
       mkState (fs st) (res st) (trace st ++ evs) (Some (path f)))
    /\ List.filter isGenerate evs = [].
Proof.
  intros Hfile Hjd Htruthy Hx. unfold generate_cover_letter_try. unfold_monad.
  rewrite Hfile. reduce. rewrite Hjd. reduce. rewrite Htruthy. cbn [negb]. reduce.
  extract_step. rewrite Hx. reduce.
  eexists. cbn [fs res trace filePath]. split; [reflexivity |].
  exact Hg.
Qed.

Lemma letter_try_without_text req st f jd text :
  req_file req = Some f ->
  get (req_body req) (lit "jobDescription") = Some jd ->
  truthy jd = true ->
  extraction (fs st) (path f) = Some text ->
  no_text text ->
  exists evs,
    run (generate_cover_letter_try req) st =
      (Throw (new_Error "Could not extract text from resume PDF"),
       mkState (fs st) (res st) (trace st ++ evs) (Some (path f)))
    /\ List.filter isGenerate evs = [].
Proof.
  intros Hfile Hjd Htruthy Hx Hblank%blank_iff.
  unfold generate_cover_letter_try. unfold_monad.
  rewrite Hfile. reduce. rewrite Hjd. reduce. rewrite Htruthy. cbn [negb]. reduce.
  extract_step. rewrite Hx. reduce. rewrite Hblank. reduce.
  eexists. cbn [fs res trace filePath]. split; [reflexivity |].
  exact Hg.
Qed.

Lemma letter_try_generation req st f jd text e :
  req_file req = Some f ->
  get (req_body req) (lit "jobDescription") = Some jd ->
  truthy jd = true ->
  extraction (fs st) (path f) = Some text ->
  ~ no_text text ->
  generateContent (cover_letter_prompt (default [] text) jd) = Throw e ->
  exists evs,
    run (generate_cover_letter_try req) st =
      (Throw e, mkState (fs st) (res st) (trace st ++ evs) (Some (path f))).
Proof.
  intros Hfile Hjd Htruthy Hx Hblank%blank_false Hgen.
  unfold generate_cover_letter_try. unfold_monad.
  rewrite Hfile. reduce. rewrite Hjd. reduce. rewrite Htruthy. cbn [negb]. reduce.
  extract_step. rewrite Hx. reduce. rewrite Hblank. reduce. rewrite Hgen. reduce.
  eexists. cbn [fs res trace filePath]. rewrite <- !app_assoc. reflexivity.
Qed.



(** The whole run of the handler on an upload without a job description:
    the error is answered and the disk is left as it was. *)
Lemma generate_cover_letter_without_description req st f jd :
  res st = None ->
  req_file req = Some f ->
  get (req_body req) (lit "jobDescription") = Some jd ->
  truthy jd = false ->
  run (generate_cover_letter req) st =
    (Normal tt,
     mkState (fs st)
       (Some (mkResponse 500
          (error_payload "Failed to generate cover letter"
             (new_Error "No job description provided"))))
       (trace st ++ [ConsoleError "Error in cover letter generation:"]) None).
Proof.
  intros Hres Hfile Hjd Hfalsy.
  pose proof (letter_try_missing_description req
    (mkState (fs st) (res st) (trace st) None) f jd Hfile Hjd Hfalsy) as HT.
  rewrite <- (app_nil_r (trace st)) in HT at 2.
  unfold generate_cover_letter, generate_cover_letter_catch.
  rewrite (upload_handler_failure _ _ _ st _ [] None Hres HT). reflexivity.
Qed.

Lemma generate_cover_letter_without_text req st f text :
  res st = None ->
  req_file req = Some f ->
  extraction (fs st) (path f) = Some text ->
  no_text text ->
  exists st' e,
    run (generate_cover_letter req) st = (Normal tt, st') /\
    sent st' 500 (error_object "Failed to generate cover letter" e) /\
    generation_calls st' = generation_calls st /\
    (truthy (field (req_body req) "jobDescription") = true ->
     e = new_Error "Could not extract text from resume PDF").
Proof.
  intros Hres Hfile Hx Hno.
  assert (Hcalls : forall fp obj evs,
    List.filter isGenerate evs = [] ->
    generation_calls
      (let st2 := mkState (fs st) obj
         (trace st ++ evs ++ [ConsoleError "Error in cover letter generation:"]) fp in
       if path_truthy fp then cleaned (default [] fp) st2 else st2)
    = generation_calls st).
  { intros fp obj evs Hg. cbn zeta.
    destruct (path_truthy fp); rewrite ?generation_calls_cleaned;
      unfold generation_calls; cbn [trace];
      rewrite !List.filter_app, Hg; simpl; by rewrite app_nil_r. }
  assert (Hsent : forall fp e evs,
    sent
      (let st2 := mkState (fs st)
         (Some (mkResponse 500 (error_payload "Failed to generate cover letter" e)))
         (trace st ++ evs ++ [ConsoleError "Error in cover letter generation:"]) fp in
       if path_truthy fp then cleaned (default [] fp) st2 else st2)
      500 (error_object "Failed to generate cover letter" e)).
  { intros fp e evs. unfold sent. cbn zeta. rewrite <- error_payload_object.
    destruct (path_truthy fp); [by rewrite res_cleaned | reflexivity]. }
  unfold generate_cover_letter, generate_cover_letter_catch, field.
  set (st0 := mkState (fs st) (res st) (trace st) None).
  destruct (get (req_body req) (lit "jobDescription")) as [jd |] eqn:Hjd.
  - destruct (truthy jd) eqn:Hjt.
    + destruct (letter_try_without_text req st0 f jd text Hfile Hjd Hjt Hx Hno)
        as (evs & HT & Hg).
      subst st0. cbn [fs res trace filePath] in HT.
      rewrite (upload_handler_failure _ _ _ st _ evs _ Hres HT).
      eexists _, _. split; [reflexivity |]. split; [apply Hsent |].
      split; [by apply Hcalls | reflexivity].
    + pose proof (letter_try_missing_description req st0 f jd Hfile Hjd Hjt) as HT.
      subst st0. rewrite <- (app_nil_r (trace st)) in HT at 2.
      rewrite (upload_handler_failure _ _ _ st _ [] None Hres HT).
      eexists _, _. split; [reflexivity |]. split; [apply Hsent |].
      split; [by apply Hcalls | simpl; congruence].
  - pose proof (letter_try_unreadable_body req st0 f Hfile Hjd) as HT.
    subst st0. rewrite <- (app_nil_r (trace st)) in HT at 2.
    rewrite (upload_handler_failure _ _ _ st _ [] None Hres HT).
    eexists _, _. split; [reflexivity |]. split; [apply Hsent |].
    split; [by apply Hcalls | simpl; congruence].
Qed.

Lemma letter_try_generated req st f jd text responseText :
  req_file req = Some f ->
  get (req_body req) (lit "jobDescription") = Some jd ->
  truthy jd = true ->
  extraction (fs st) (path f) = Some text ->
  ~ no_text text ->
  generateContent (cover_letter_prompt (default [] text) jd) = Normal responseText ->
  exists evs,
    run (generate_cover_letter_try req) st =
      run (cover_letter_normalize responseText)
        (mkState (fs st) (res st) (trace st ++ evs) (Some (path f))).
Proof.
  intros Hfile Hjd Htruthy Hx Hblank%blank_false Hgen.
  unfold generate_cover_letter_try. unfold_monad.
  rewrite Hfile. reduce. rewrite Hjd. reduce. rewrite Htruthy. cbn [negb]. reduce.
  extract_step. rewrite Hx. reduce. rewrite Hblank. reduce. rewrite Hgen. reduce.
  eexists. cbn [fs res trace filePath]. rewrite <- !app_assoc. reflexivity.
Qed.

(** With a job description, every exit of [/api/generate-cover-letter]
    runs the cleanup on the uploaded file. *)
Lemma generate_cover_letter_cleans_upload req st f jd :
  res st = None ->
  req_file req = Some f ->
  path f <> [] ->
  get (req_body req) (lit "jobDescription") = Some jd ->
  truthy jd = true ->
  exists st',
    run (generate_cover_letter req) st = (Normal tt, st') /\
    is_Some (res st') /\
    fs st' = fs (cleaned (path f) st).
Proof.
  intros Hres Hfile Hpath Hjd Hjt.
  assert (Htruthy : path_truthy (Some (path f)) = true).
  { simpl. by rewrite (proj2 (eqb_false _ _) Hpath). }
  set (st0 := mkState (fs st) (res st) (trace st) None).
  assert (Hfail : forall e evs,
    run (generate_cover_letter_try req) st0 =
      (Throw e, mkState (fs st) (res st) (trace st ++ evs) (Some (path f))) ->
    exists st',
      run (generate_cover_letter req) st = (Normal tt, st') /\
      is_Some (res st') /\ fs st' = fs (cleaned (path f) st)).
  { intros e evs HT. unfold generate_cover_letter, generate_cover_letter_catch.
    rewrite (upload_handler_failure _ _ _ st e evs _ Hres HT).
    eexists. split; [reflexivity |]. cbn zeta. rewrite Htruthy.
    split; [rewrite res_cleaned; eauto | by apply fs_cleaned]. }
  destruct (extraction (fs st) (path f)) as [text |] eqn:Hx.
  - destruct (blank text) eqn:Hb.
    + apply blank_iff in Hb.
      destruct (letter_try_without_text req st0 f jd text Hfile Hjd Hjt Hx Hb)
        as (evs & HT & _). by eapply Hfail.
    + apply blank_false in Hb.
      destruct (generateContent (cover_letter_prompt (default [] text) jd))
        as [responseText | e] eqn:Hgen.
      * destruct (letter_try_generated req st0 f jd text responseText
                    Hfile Hjd Hjt Hx Hb Hgen) as (evs & HT).
        subst st0. cbn [fs res trace filePath] in HT.
        destruct (cover_letter_normalize_answers responseText
                    (mkState (fs st) (res st) (trace st ++ evs) (Some (path f))) Hres)
          as (obj & evs' & HN & _).
        cbn [fs res trace filePath] in HN. rewrite HN in HT.
        unfold generate_cover_letter.
        rewrite (upload_handler_success _ _ st _ HT).
        eexists. split; [reflexivity |]. cbn [filePath]. rewrite Htruthy.
        split; [rewrite res_cleaned; eauto | by apply fs_cleaned].
      * destruct (letter_try_generation req st0 f jd text e Hfile Hjd Hjt Hx Hb Hgen)
          as (evs & HT). by eapply Hfail.
  - destruct (letter_try_unreadable req st0 f jd Hfile Hjd Hjt Hx) as (evs & HT & _).
    by eapply Hfail.
Qed.

(** ** [/api/generate-cover-letter/text] *)

Lemma text_missing_field req st jd se :
  res st = None ->
  get (req_body req) (lit "jobDescription") = Some jd ->
  get (req_body req) (lit "skillsExperience") = Some se ->
  truthy jd = false \/ truthy se = false ->
  run (generate_cover_letter_text req) st =
    (Normal tt,
     respond 400
       (JObject [
          (lit "success", JBool false);
          (lit "error",
            JString (lit "Both job description and skills/experience are required"))
        ])
       (logged (ConsoleLog "Received request body:") st)).
Proof.
  intros Hres Hjd Hse Hfalsy.
  assert (Htest : negb (truthy jd) || negb (truthy se) = true).
  { destruct Hfalsy as [-> | ->]; [reflexivity | apply orb_true_r]. }
  unfold generate_cover_letter_text, generate_cover_letter_text_try. unfold_monad.
  reduce. rewrite Hjd. reduce. rewrite Hse. reduce. rewrite Htest. reduce.
  cbn [fs res trace filePath]. rewrite Hres. reflexivity.
Qed.


(** ** Upload intake *)

Lemma upload_path_fresh name : uploadDir ++ lit "/" ++ name <> uploadDir.
Proof.
  intros H. rewrite <- (app_nil_r uploadDir) in H at 2.
  apply app_inv_head in H. discriminate.
Qed.

Lemma run_destination st :
  run destination st =
    match fs st !! uploadDir with
    | Some _ => (Normal uploadDir, st)
    | None =>
        match mkdir_fault uploadDir with
        | Some f => (Throw (engine_error f), st)
        | None =>
            (Normal uploadDir,
             mkState (<[uploadDir := Directory]> (fs st)) (res st) (trace st)
               (filePath st))
        end
    end.
Proof.
  unfold destination, mkdirSync. unfold_monad. reduce.
  destruct (fs st !! uploadDir) as [node |] eqn:Hdir.
  - by rewrite bool_decide_eq_true_2 by eauto.
  - rewrite bool_decide_eq_false_2 by (by intros [? ?]).
    cbn [negb]. reduce. rewrite Hdir. by destruct (mkdir_fault uploadDir).
Qed.



Lemma removeUploaded_quiet p st :
  exists st',
    run (removeUploaded p) st = (Normal tt, st') /\
    res st' = res st /\ trace st' = trace st.
Proof.
  unfold removeUploaded, unlinkSync. unfold_monad. reduce.
  destruct (fs st !! p) as [[? [|] |] |]; by eexists.
Qed.



(** A named PDF below the size limit is written under the upload directory
    and handed to the handler as [req.file]. *)
Lemma upload_single_accepts r file disk :
  part r = Some file ->
  originalname file <> [] ->
  fieldname file = lit "resume" ->
  mimetype file = lit "application/pdf" ->
  size file < fileSize ->
  (disk !! uploadDir = None /\ mkdir_fault uploadDir = None) \/
    disk !! uploadDir = Some Directory ->
  disk !! (uploadDir ++ lit "/" ++ filename file) <> Some Directory ->
  exists st,
    run (upload_single (lit "resume") r) (initial disk) =
      (Normal (Some (mkUploadedFile (uploadDir ++ lit "/" ++ filename file)
                       (originalname file) (lit "application/pdf") (size file))), st) /\
    fs st !! (uploadDir ++ lit "/" ++ filename file) =
      Some (File (content file) (unlinkable (uploadDir ++ lit "/" ++ filename file))) /\
    res st = None /\ trace st = [].
Proof.
  intros Hpart Hnamed Hname Hmime Hsize Hdir Hfree.
  unfold upload_single, fileFilter.
  rewrite Hpart, Hname, Hmime, (proj2 (eqb_false _ _) Hnamed).
  rewrite !(proj2 (eqb_true _ _) eq_refl). cbn [negb].
  rewrite run_bind, run_destination.
  unfold initial in *. cbn [fs res trace filePath].
  assert (Hsz := proj2 (N.leb_gt _ _) Hsize).
  destruct Hdir as [[Hdir Hmk] | Hdir]; rewrite Hdir; try rewrite Hmk;
    reduce; rewrite Hsz; unfold writeFile; unfold_monad; reduce;
    cbn [fs res trace filePath];
    set (p := uploadDir ++ lit "/" ++ filename file) in *.
  - rewrite lookup_insert_eq. rewrite lookup_insert_ne by (symmetry; apply upload_path_fresh).
    destruct (disk !! p) as [[data rm |] |] eqn:Hp; [| done |];
      (eexists; split; [reflexivity |]; cbn [fs res trace filePath];
       by rewrite lookup_insert_eq).
  - rewrite Hdir.
    destruct (disk !! p) as [[data rm |] |] eqn:Hp; [| done |];
      (eexists; split; [reflexivity |]; cbn [fs res trace filePath];
       by rewrite lookup_insert_eq).
Qed.

(** ** The normalizers, as specified *)

Lemma number_above_100_truthy x :
  JsNumber.ltb (JsNumber.of_N 100) x = true -> JsNumber.truthy x = true.
Proof.
  destruct x as [sign | sign | | sign m e]; try reflexivity.
  - by destruct sign.
  - discriminate.
Qed.

(** C1, amended. For every generation result that parses as JSON and has a
    truthy [score] and an array-typed [suggestions], the strict branch of
    the ATS normalizer returns normally and sends, with status 200, exactly
    the object made of the parsed [score], the parsed [findings] when that
    is truthy and the empty sequence otherwise, and the parsed
    [suggestions]; the fallback leaves no trace, not even on the console. *)
Theorem ats_strict_response text v st :
  JSON_parse text = Some v ->
  truthy (field v "score") = true ->
  isArray (field v "suggestions") = true ->
  res st = None ->
  run (ats_normalize text) st =
    (Normal tt,
     mkState (fs st)
       (Some (mkResponse 200
          (JObject [
             (lit "score", field v "score");
             (lit "findings",
               if truthy (field v "findings") then field v "findings" else JArray []);
             (lit "suggestions", field v "suggestions")
           ])))
       (trace st) (filePath st)).
Proof.
  intros Hparse Hscore Hsugg Hres.
  apply (ats_normalize_strict text v st Hparse); [| exact Hres].
  unfold ats_required_fields. by rewrite Hscore, Hsugg.
Qed.

(** C2. For every generation result that is not JSON, or whose parsed
    value lacks a truthy [score] or an array-typed [suggestions], the ATS
    normalizer returns normally (the parse exception stays inside it) and
    sends, with status 200, the object whose [findings] is
    ["Analysis completed"], whose [suggestions] is
    ["Consider reviewing the resume format"], and whose [score] is the
    Number of the integer denoted by the first maximal run of decimal
    digits of the raw text, or 70 when the text has no digit. *)
Theorem ats_fallback_response text st :
  res st = None ->
  (JSON_parse text = None \/
   exists v, JSON_parse text = Some v /\
     (truthy (field v "score") = false \/ isArray (field v "suggestions") = false)) ->
  exists score,
    run (ats_normalize text) st =
      (Normal tt,
       mkState (fs st)
         (Some (mkResponse 200
            (JObject [
               (lit "score", JNumber score);
               (lit "findings", JArray [JString (lit "Analysis completed")]);
               (lit "suggestions",
                 JArray [JString (lit "Consider reviewing the resume format")])
             ])))
         (trace st ++ [ConsoleError "Parse error:"]) (filePath st))
    /\ ((exists before digits after,
           text = before ++ digits ++ after /\
           Forall (fun c => JsString.isDigit c = false) before /\
           digits <> [] /\
           Forall (fun c => JsString.isDigit c = true) digits /\
           (forall c, head after = Some c -> JsString.isDigit c = false) /\
           score = JsNumber.of_N (JsNumber.decimal digits))
        \/ (Forall (fun c => JsString.isDigit c = false) text /\
            score = JsNumber.of_N 70)).
Proof.
  intros Hres Hcase.
  exists (fallback_score text). split.
  - apply ats_normalize_fallback; [| exact Hres].
    intros v Hv. unfold ats_required_fields.
    destruct Hcase as [Hnone | (v' & Hv' & [Hs | Ha])]; [congruence | |];
      assert (v' = v) as -> by congruence.
    + by rewrite Hs.
    + rewrite Ha. apply andb_false_r.
  - unfold fallback_score.
    destruct (JsString.match_digits text) as [digits |] eqn:Hm.
    + left. destruct (match_digits_Some text digits Hm)
        as (before & after & Htext & Hb & Hne & Hd & Ha).
      exists before, digits, after. repeat split; try done.
      by apply parseInt_digits.
    + right. split; [by apply match_digits_None | reflexivity].
Qed.

(** C3, amended. For every generation result that is not JSON or whose
    parsed value lacks a truthy [coverLetter], the two cover-letter
    normalizers return normally and send, with status 200, the fallback
    object: [coverLetter] is the raw text in which every run of carriage
    returns and line feeds is replaced by one line feed and from which the
    leading and trailing white space is then trimmed, [highlights] is the
    route's fixed one-element array and [suggestedImprovements] is
    ["Consider reviewing and personalizing the generated content"]; the
    text route wraps the object as [{success: true, data: ...}]. *)
Theorem letter_fallback_response text st :
  res st = None ->
  (JSON_parse text = None \/
   exists v, JSON_parse text = Some v /\ truthy (field v "coverLetter") = false) ->
  let letterContent := JsString.trim (JsString.replace_crlf text) in
  let improvements :=
    JArray [JString (lit "Consider reviewing and personalizing the generated content")] in
  run (cover_letter_normalize text) st =
    (Normal tt,
     mkState (fs st)
       (Some (mkResponse 200
          (JObject [
             (lit "coverLetter", JString letterContent);
             (lit "highlights",
               JArray [JString
                 (lit "Letter generated based on your resume and job description")]);
             (lit "suggestedImprovements", improvements)
           ])))
       (trace st ++ [ConsoleError "Parse error:"]) (filePath st))
  /\
  run (cover_letter_text_normalize text) st =
    (Normal tt,
     mkState (fs st)
       (Some (mkResponse 200
          (JObject [
             (lit "success", JBool true);
             (lit "data",
               JObject [
                 (lit "coverLetter", JString letterContent);
                 (lit "highlights",
                   JArray [JString
                     (lit "Letter generated based on your background and job description")]);
                 (lit "suggestedImprovements", improvements)
               ])
           ])))
       (trace st ++ [ConsoleError "Parse error:"]) (filePath st)).
Proof.
  intros Hres Hcase.
  assert (Hno : forall v, JSON_parse text = Some v -> letter_required_fields v = false).
  { intros v Hv. unfold letter_required_fields.
    destruct Hcase as [Hnone | (v' & Hv' & Hl)]; congruence. }
  split.
  - exact (cover_letter_normalize_fallback text st Hno Hres).
  - exact (cover_letter_text_normalize_fallback text st Hno Hres).
Qed.

(** C9. In the strict branch of the ATS normalizer the parsed [score] goes
    to the client as it is: when the generation result is JSON whose
    [suggestions] is an array and whose [score] is a non-empty string, or a
    number greater than 100, the [score] of the response is exactly that
    value. *)
Theorem ats_strict_score_unvalidated text v st :
  JSON_parse text = Some v ->
  isArray (field v "suggestions") = true ->
  res st = None ->
  ((exists s, field v "score" = JString s /\ s <> []) \/
   (exists x, field v "score" = JNumber x /\
      JsNumber.ltb (JsNumber.of_N 100) x = true)) ->
  exists st' r,
    run (ats_normalize text) st = (Normal tt, st') /\
    res st' = Some r /\
    status r = 200 /\
    get (json r) (lit "score") = Some (field v "score").
Proof.
  intros Hparse Hsugg Hres Hscore.
  assert (Htruthy : truthy (field v "score") = true).
  { destruct Hscore as [(s & -> & Hs) | (x & -> & Hx)]; simpl.
    - by rewrite (proj2 (eqb_false _ _) Hs).
    - by apply number_above_100_truthy. }
  rewrite (ats_normalize_strict text v st Hparse); [| | exact Hres].
  - eexists _, _. repeat split.
  - unfold ats_required_fields. by rewrite Htruthy, Hsugg.
Qed.

(** ** The routes, as specified *)

Lemma readable_body body k :
  body <> JNull -> body <> JUndefined -> get body (lit k) = Some (field body k).
Proof. unfold field. by destruct body. Qed.

(** C4, on the code. A request to [/api/generate-cover-letter] whose PDF
    the upload intake accepted and wrote to disk (a named part in the field
    [resume], reported as [application/pdf], below the size limit, with an
    upload directory that exists or can be created), and whose body has no
    (truthy) [jobDescription], is answered with the 500 of
    "No job description provided" and the uploaded file is still on disk
    when the handler has returned: [filePath] is assigned after the check
    that throws, so the [finally] block does not call [cleanupFile]. *)
Theorem cover_letter_upload_not_cleaned r file disk jd :
  part r = Some file ->
  originalname file <> [] ->
  fieldname file = lit "resume" ->
  mimetype file = lit "application/pdf" ->
  size file < 5242880 ->
  (disk !! uploadDir = None /\ mkdir_fault uploadDir = None) \/
    disk !! uploadDir = Some Directory ->
  disk !! (uploadDir ++ lit "/" ++ filename file) <> Some Directory ->
  get (fields r) (lit "jobDescription") = Some jd ->
  truthy jd = false ->
  exists st,
    post_upload generate_cover_letter r disk = Handled (Normal tt) st /\
    sent st 500
      (JObject [
         (lit "error", JString (lit "No job description provided"));
         (lit "details",
           if development
           then JString (capture_stack (lit "No job description provided"))
           else JUndefined)
       ]) /\
    fs st !! (uploadDir ++ lit "/" ++ filename file) =
      Some (File (content file) (unlinkable (uploadDir ++ lit "/" ++ filename file))).
Proof.
  intros Hpart Hnamed Hname Hmime Hsize Hdir Hfree Hjd Hfalsy.
  destruct (upload_single_accepts r file disk Hpart Hnamed Hname Hmime Hsize Hdir Hfree)
    as (st1 & Hup & Hfile & Hres & _).
  unfold post_upload. rewrite Hup.
  rewrite (generate_cover_letter_without_description (mkReq (Some _) (fields r)) st1 _ jd
             Hres eq_refl Hjd Hfalsy).
  eexists. split; [reflexivity |]. split; [| exact Hfile].
  unfold sent. cbn [res]. rewrite error_payload_object. reflexivity.
Qed.

(** C5. For every POST to [/api/generate-cover-letter/text] whose JSON body
    lacks a truthy [jobDescription] or a truthy [skillsExperience], the
    handler returns normally, the response is the status 400 with exactly
    [{success: false, error: "Both job description and skills/experience
    are required"}], and the generation collaborator was not called. *)
Theorem text_route_validation body disk :
  body <> JNull -> body <> JUndefined ->
  truthy (field body "jobDescription") = false \/
  truthy (field body "skillsExperience") = false ->
  exists st,
    post_json generate_cover_letter_text body disk = Handled (Normal tt) st /\
    res st =
      Some (mkResponse 400
        (JObject [
           (lit "success", JBool false);
           (lit "error",
             JString (lit "Both job description and skills/experience are required"))
         ])) /\
    generation_calls st = [].
Proof.
  intros Hnull Hundef Hfalsy.
  unfold post_json.
  rewrite (text_missing_field (mkReq None body) (initial disk)
             (field body "jobDescription") (field body "skillsExperience") eq_refl
             (readable_body body _ Hnull Hundef) (readable_body body _ Hnull Hundef) Hfalsy).
  eexists. repeat split.
Qed.

(** C6. For every request with an upload whose extracted text is absent,
    empty or only white space, both upload handlers end with the error
    response and without a call to the generation collaborator; on the ATS
    route the error is "Could not extract text from PDF", and so it is,
    with "resume PDF", on the cover-letter route when the request has a job
    description. *)
Theorem blank_pdf_rejected req st f text :
  res st = None ->
  req_file req = Some f ->
  extraction (fs st) (path f) = Some text ->
  no_text text ->
  (exists st',
     run (ats_check req) st = (Normal tt, st') /\
     sent st' 500
       (JObject [
          (lit "error", JString (lit "Could not extract text from PDF"));
          (lit "details",
            if development
            then JString (capture_stack (lit "Could not extract text from PDF"))
            else JUndefined)
        ]) /\
     generation_calls st' = generation_calls st)
  /\
  (exists st' e,
     run (generate_cover_letter req) st = (Normal tt, st') /\
     sent st' 500 (error_object "Failed to generate cover letter" e) /\
     generation_calls st' = generation_calls st /\
     (truthy (field (req_body req) "jobDescription") = true ->
      e = new_Error "Could not extract text from resume PDF")).
Proof.
  intros Hres Hfile Hx Hno. split.
  - destruct (ats_check_without_text req st f text Hres Hfile Hx Hno)
      as (st' & Hrun & Hsent & Hcalls).
    by exists st'.
  - destruct (generate_cover_letter_without_text req st f text Hres Hfile Hx Hno)
      as (st' & e & Hrun & Hsent & Hcalls & He).
    by exists st', e.
Qed.


(** C10. [cleanupFile] is total and idempotent. On every path and state it
    returns normally; it changes nothing when the path does not exist; when
    the path exists and cannot be unlinked the error goes to the console
    and the disk is unchanged; when the file can be unlinked it is gone;
    and a second call on the same path leaves the disk as the first call
    left it. *)
Theorem cleanupFile_total_idempotent p st :
  exists st1 st2,
    run (cleanupFile p) st = (Normal tt, st1) /\
    run (cleanupFile p) st1 = (Normal tt, st2) /\
    fs st2 = fs st1 /\
    (fs st !! p = None -> st1 = st) /\
    (forall data, fs st !! p = Some (File data true) -> fs st1 = delete p (fs st)) /\
    (forall node, fs st !! p = Some node ->
       (forall data, node <> File data true) ->
       fs st1 = fs st /\
       trace st1 = trace st ++ [ConsoleError "Error cleaning up file:"]).
Proof.
  exists (cleaned p st), (cleaned p (cleaned p st)).
  rewrite !run_cleanupFile.
  split; [reflexivity |]. split; [reflexivity |]. split; [| split; [| split]].
  - destruct (fs st !! p) as [[data [|] |] |] eqn:Hp.
    + assert (cleaned p st = mkState (delete p (fs st)) (res st) (trace st) (filePath st))
        as -> by (unfold cleaned; by rewrite Hp).
      unfold cleaned. cbn [fs]. by rewrite lookup_delete_eq.
    + assert (cleaned p st = logged (ConsoleError "Error cleaning up file:") st)
        as -> by (unfold cleaned; by rewrite Hp).
      unfold cleaned, logged. cbn [fs]. by rewrite Hp.
    + assert (cleaned p st = logged (ConsoleError "Error cleaning up file:") st)
        as -> by (unfold cleaned; by rewrite Hp).
      unfold cleaned, logged. cbn [fs]. by rewrite Hp.
    + assert (cleaned p st = st) as -> by (unfold cleaned; by rewrite Hp).
      unfold cleaned. by rewrite Hp.
  - intros Hp. unfold cleaned. by rewrite Hp.
  - intros data Hp. unfold cleaned. by rewrite Hp.
  - intros node Hp Hnode. unfold cleaned. rewrite Hp.
    destruct node as [data [|] |]; [by destruct (Hnode data) | done | done].
Qed.


(** * Further properties of the code *)

(** ** Text extraction and upload intake *)

(** X1. [extractTextFromPDF] gives the text the PDF parser finds in the
    bytes of the file; a path that is missing or a directory, and a failure
    of the parser, all end in the one error "Failed to extract text from
    PDF" after a line on the console, the original error being dropped; the
    parser is called only on a file that could be read, and the disk and
    the response are never touched. *)
Theorem extractTextFromPDF_outcomes p st :
  (forall data rm text,
     fs st !! p = Some (File data rm) -> pdf data = Normal text ->
     run (extractTextFromPDF p) st = (Normal text, logged (PdfParse data) st))
  /\
  (forall data rm e,
     fs st !! p = Some (File data rm) -> pdf data = Throw e ->
     run (extractTextFromPDF p) st =
       (Throw (new_Error "Failed to extract text from PDF"),
        logged (ConsoleError "PDF extraction error:") (logged (PdfParse data) st)))
  /\
  (fs st !! p = None \/ fs st !! p = Some Directory ->
   run (extractTextFromPDF p) st =
     (Throw (new_Error "Failed to extract text from PDF"),
      logged (ConsoleError "PDF extraction error:") st)).
Proof.
  unfold extractTextFromPDF, readFileSync. unfold_monad. repeat split.
  - intros data rm text Hp Hpdf. rewrite Hp. reduce. by rewrite Hpdf.
  - intros data rm e Hp Hpdf. rewrite Hp. reduce. by rewrite Hpdf.
  - intros [Hp | Hp]; by rewrite Hp.
Qed.

(** X2. [storage.destination] has no [try] around [fs.mkdirSync]: it
    answers "uploads" and leaves the state alone when the path exists;
    when the path is missing and the directory cannot be created the
    error of [mkdirSync] propagates and nothing changes; when it can be
    created, the directory is the only change and a second call changes
    nothing. *)
Theorem destination_creates_directory st :
  (is_Some (fs st !! uploadDir) -> run destination st = (Normal uploadDir, st)) /\
  (forall f,
     fs st !! uploadDir = None -> mkdir_fault uploadDir = Some f ->
     run destination st = (Throw (engine_error f), st)) /\
  (fs st !! uploadDir = None -> mkdir_fault uploadDir = None ->
   exists st',
     run destination st = (Normal uploadDir, st') /\
     fs st' = <[uploadDir := Directory]> (fs st) /\
     res st' = res st /\ trace st' = trace st /\
     run destination st' = (Normal uploadDir, st')).
Proof.
  rewrite run_destination. repeat split.
  - by intros [node ->].
  - by intros f -> ->.
  - intros Hdir Hmk. rewrite Hdir, Hmk. eexists. split; [reflexivity |].
    rewrite run_destination. cbn [fs res trace filePath].
    by rewrite lookup_insert_eq.
Qed.

Lemma destination_normal st dir st' :
  run destination st = (Normal dir, st') ->
  dir = uploadDir /\ res st' = res st /\ trace st' = trace st.
Proof.
  rewrite run_destination.
  destruct (fs st !! uploadDir); [| destruct (mkdir_fault uploadDir)];
    by intros [= <- <-].
Qed.

Lemma writeFile_normal dir name data st st' :
  run (writeFile dir name data) st = (Normal tt, st') ->
  fs st' !! (dir ++ lit "/" ++ name) =
    Some (File data (unlinkable (dir ++ lit "/" ++ name))) /\
  res st' = res st /\ trace st' = trace st.
Proof.
  unfold writeFile. unfold_monad. reduce.
  destruct (fs st !! dir) as [[? ? |] |]; [by intros [=] | | by intros [=]].
  destruct (fs st !! (dir ++ lit "/" ++ name)) as [[? ? |] |];
    [| by intros [=] |]; intros [= <-]; cbn [fs res trace];
    by rewrite lookup_insert_eq.
Qed.

Lemma upload_single_normal name r disk u st :
  run (upload_single name r) (initial disk) = (Normal (Some u), st) ->
  exists file,
    part r = Some file /\
    originalname file <> [] /\
    fieldname file = name /\
    mimetype file = lit "application/pdf" /\
    size file < 5242880 /\
    path u = lit "uploads/" ++ JsString.of_N Date_now ++ lit "-" ++ originalname file /\
    file_originalname u = originalname file /\
    file_mimetype u = lit "application/pdf" /\
    fs st !! path u = Some (File (content file) (unlinkable (path u))) /\
    path u <> [] /\
    res st = None /\ trace st = [].
Proof.
  unfold upload_single.
  destruct (part r) as [file |]; [| by intros [=]].
  destruct (JsString.eqb (originalname file) []) eqn:Hnamed; [by intros [=] |].
  destruct (JsString.eqb (fieldname file) name) eqn:Hname; cbn [negb]; [| by intros [=]].
  unfold fileFilter.
  destruct (JsString.eqb (mimetype file) (lit "application/pdf")) eqn:Hmime;
    [| by intros [=]].
  apply eqb_false in Hnamed. apply eqb_true in Hname, Hmime.
  rewrite run_bind.
  destruct (run destination (initial disk)) as [[dir | e] s1] eqn:Hd; [| by intros [=]].
  apply destination_normal in Hd as (-> & Hr1 & Ht1).
  destruct (fileSize <=? size file) eqn:Hsize; rewrite run_bind.
  { destruct (run (writeFile uploadDir (filename file) _) s1) as [[[] | e] s2];
      [| by intros [=]].
    rewrite run_bind.
    destruct (removeUploaded_quiet (uploadDir ++ lit "/" ++ filename file) s2)
      as (s3 & -> & _).
    by intros [=]. }
  apply N.leb_gt in Hsize.
  destruct (run (writeFile uploadDir (filename file) (content file)) s1)
    as [[[] | e] s2] eqn:Hw; [| by intros [=]].
  apply writeFile_normal in Hw as (Hfile & Hr2 & Ht2).
  intros [= <- <-]. exists file. cbn [path file_originalname file_mimetype].
  unfold initial in *. cbn [res trace] in *.
  repeat split; try done; congruence.
Qed.

(** X3. Whatever the upload intake hands to a handler as [req.file] is a
    named part under the expected field whose reported type is exactly
    [application/pdf] and whose size is below 5 MiB; its bytes are on
    disk at [req.file.path], which is "uploads/", the clock reading, "-"
    and the original name, and nothing has been sent or logged yet. *)
Theorem accepted_upload_is_stored_pdf name r disk u st :
  run (upload_single name r) (initial disk) = (Normal (Some u), st) ->
  exists file,
    part r = Some file /\
    originalname file <> [] /\
    fieldname file = name /\
    mimetype file = lit "application/pdf" /\
    size file < 5242880 /\
    path u = lit "uploads/" ++ JsString.of_N Date_now ++ lit "-" ++ originalname file /\
    file_originalname u = originalname file /\
    file_mimetype u = lit "application/pdf" /\
    fs st !! path u = Some (File (content file) (unlinkable (path u))) /\
    path u <> [] /\
    res st = None /\ trace st = [].
Proof. apply upload_single_normal. Qed.

(** X5. A request without a file part reaches the handler with no
    [req.file]: both upload routes answer 500 with their own message
    ("No file uploaded", "No resume file uploaded", the latter also when
    the job description is missing too), and neither the disk, the PDF
    parser nor the generation collaborator is touched. *)
Theorem upload_routes_without_file body disk :
  (exists st,
     post_upload ats_check (mkRequest None body) disk = Handled (Normal tt) st /\
     sent st 500
       (JObject [
          (lit "error", JString (lit "No file uploaded"));
          (lit "details",
            if development then JString (capture_stack (lit "No file uploaded"))
            else JUndefined)
        ]) /\
     fs st = disk /\ extraction_calls st = [] /\ generation_calls st = [])
  /\
  (exists st,
     post_upload generate_cover_letter (mkRequest None body) disk = Handled (Normal tt) st /\
     sent st 500
       (JObject [
          (lit "error", JString (lit "No resume file uploaded"));
          (lit "details",
            if development then JString (capture_stack (lit "No resume file uploaded"))
            else JUndefined)
        ]) /\
     fs st = disk /\ extraction_calls st = [] /\ generation_calls st = []).
Proof.
  split.
  - unfold post_upload, upload_single. cbn [part]. unfold run at 1, mret, M_ret at 1.
    pose proof (ats_try_missing_file (mkReq None body) (initial disk) eq_refl) as HT.
    unfold ats_check_try in HT. revert HT. unfold_monad. cbn [req_file]. reduce.
    intros _.
    unfold ats_check, ats_check_try, ats_check_catch, cleanup_upload. unfold_monad.
    cbn [req_file fs res trace filePath initial path_truthy]. reduce.
    eexists. split; [reflexivity |]. unfold sent. cbn [fs res trace].
    rewrite error_payload_object. by repeat split.
  - unfold post_upload, upload_single. cbn [part]. unfold run at 1, mret, M_ret at 1.
    unfold generate_cover_letter, generate_cover_letter_try, generate_cover_letter_catch,
      cleanup_upload. unfold_monad.
    cbn [req_file fs res trace filePath initial path_truthy]. reduce.
    eexists. split; [reflexivity |]. unfold sent. cbn [fs res trace].
    rewrite error_payload_object. by repeat split.
Qed.

Lemma cleaned_upload p st data (rm : bool) :
  fs st !! p = Some (File data rm) ->
  fs (cleaned p st) !! p = if rm then None else Some (File data false).
Proof.
  intros Hp. unfold cleaned. rewrite Hp.
  destruct rm; cbn [fs logged]; [apply lookup_delete_eq | exact Hp].
Qed.

Lemma upload_path_nonempty name : uploadDir ++ lit "/" ++ name <> [].
Proof. discriminate. Qed.

(** X6. On [/api/ats-check] the removal of an accepted upload is attempted
    on every path through the handler (unreadable PDF, PDF without text,
    failure of the generation collaborator, strict or fallback response):
    when the handler has returned, normally and with a response sent, the
    file is gone if the server could unlink it, and is still there
    otherwise, [cleanupFile] having swallowed the failure. *)
Theorem ats_upload_removed r file disk :
  part r = Some file ->
  originalname file <> [] ->
  fieldname file = lit "resume" ->
  mimetype file = lit "application/pdf" ->
  size file < 5242880 ->
  (disk !! uploadDir = None /\ mkdir_fault uploadDir = None) \/
    disk !! uploadDir = Some Directory ->
  disk !! (uploadDir ++ lit "/" ++ filename file) <> Some Directory ->
  exists st,
    post_upload ats_check r disk = Handled (Normal tt) st /\
    is_Some (res st) /\
    fs st !! (uploadDir ++ lit "/" ++ filename file) =
      if unlinkable (uploadDir ++ lit "/" ++ filename file)
      then None
      else Some (File (content file) false).
Proof.
  intros Hpart Hnamed Hname Hmime Hsize Hdir Hfree.
  destruct (upload_single_accepts r file disk Hpart Hnamed Hname Hmime Hsize Hdir Hfree)
    as (st1 & Hup & Hfile & Hres & _).
  unfold post_upload. rewrite Hup.
  destruct (ats_check_cleans_upload
              (mkReq (Some (mkUploadedFile (uploadDir ++ lit "/" ++ filename file)
                              (originalname file) (lit "application/pdf") (size file)))
                 (fields r))
              st1 _ Hres eq_refl (upload_path_nonempty (filename file)))
    as (st' & -> & Hsent & Hfs).
  exists st'. split; [reflexivity |]. split; [exact Hsent |].
  cbn [path] in Hfs. rewrite Hfs. by apply cleaned_upload.
Qed.

(** X7. On [/api/generate-cover-letter] the removal of an accepted upload
    that comes with a job description is attempted on every path through
    the handler: when the handler has returned the file is gone if the
    server could unlink it, and is still there otherwise. *)
Theorem cover_letter_upload_removed r file disk jd :
  part r = Some file ->
  originalname file <> [] ->
  fieldname file = lit "resume" ->
  mimetype file = lit "application/pdf" ->
  size file < 5242880 ->
  (disk !! uploadDir = None /\ mkdir_fault uploadDir = None) \/
    disk !! uploadDir = Some Directory ->
  disk !! (uploadDir ++ lit "/" ++ filename file) <> Some Directory ->
  get (fields r) (lit "jobDescription") = Some jd ->
  truthy jd = true ->
  exists st,
    post_upload generate_cover_letter r disk = Handled (Normal tt) st /\
    is_Some (res st) /\
    fs st !! (uploadDir ++ lit "/" ++ filename file) =
      if unlinkable (uploadDir ++ lit "/" ++ filename file)
      then None
      else Some (File (content file) false).
Proof.
  intros Hpart Hnamed Hname Hmime Hsize Hdir Hfree Hjd Hjt.
  destruct (upload_single_accepts r file disk Hpart Hnamed Hname Hmime Hsize Hdir Hfree)
    as (st1 & Hup & Hfile & Hres & _).
  unfold post_upload. rewrite Hup.
  destruct (generate_cover_letter_cleans_upload
              (mkReq (Some (mkUploadedFile (uploadDir ++ lit "/" ++ filename file)
                              (originalname file) (lit "application/pdf") (size file)))
                 (fields r))
              st1 _ jd Hres eq_refl (upload_path_nonempty (filename file)) Hjd Hjt)
    as (st' & -> & Hsent & Hfs).
  exists st'. split; [reflexivity |]. split; [exact Hsent |].
  cbn [path] in Hfs. rewrite Hfs. by apply cleaned_upload.
Qed.

(** ** The handlers as a whole *)

Lemma ended_calls (b : bool) p st :
  generation_calls (if b then cleaned p st else st) = generation_calls st.
Proof. destruct b; [apply generation_calls_cleaned | reflexivity]. Qed.

Lemma ended_res (b : bool) p st : res (if b then cleaned p st else st) = res st.
Proof. destruct b; [apply res_cleaned | reflexivity]. Qed.

Lemma ats_try_generation_calls req st f text e :
  req_file req = Some f ->
  extraction (fs st) (path f) = Some text ->
  ~ no_text text ->
  generateContent (ats_prompt (default [] text)) = Throw e ->
  exists evs,
    run (ats_check_try req) st =
      (Throw e, mkState (fs st) (res st) (trace st ++ evs) (Some (path f)))
    /\ List.filter isGenerate evs = [GenerateContent (ats_prompt (default [] text))].
Proof.
  intros Hfile Hx Hblank%blank_false Hgen. unfold ats_check_try. unfold_monad.
  rewrite Hfile. reduce.
  extract_step. rewrite Hx. reduce. rewrite Hblank. reduce. rewrite Hgen. reduce.
  eexists. cbn [fs res trace filePath]. rewrite <- !app_assoc. split; [reflexivity |].
  rewrite !List.filter_app, Hg. reflexivity.
Qed.

Lemma ats_try_generated_calls req st f text responseText :
  req_file req = Some f ->
  extraction (fs st) (path f) = Some text ->
  ~ no_text text ->
  generateContent (ats_prompt (default [] text)) = Normal responseText ->
  exists evs,
    run (ats_check_try req) st =
      run (ats_normalize responseText)
        (mkState (fs st) (res st) (trace st ++ evs) (Some (path f)))
    /\ List.filter isGenerate evs = [GenerateContent (ats_prompt (default [] text))].
Proof.
  intros Hfile Hx Hblank%blank_false Hgen. unfold ats_check_try. unfold_monad.
  rewrite Hfile. reduce.
  extract_step. rewrite Hx. reduce. rewrite Hblank. reduce. rewrite Hgen. reduce.
  eexists. cbn [fs res trace filePath]. rewrite <- !app_assoc. split; [reflexivity |].
  rewrite !List.filter_app, Hg. reflexivity.
Qed.

(** The end of an upload handler whose [try] block threw. *)
Lemma upload_handler_caught (T : M unit) label fallback st e evs fp :
  res st = None ->
  run T (mkState (fs st) (res st) (trace st) None) =
    (Throw e, mkState (fs st) (res st) (trace st ++ evs) fp) ->
  exists st',
    run (set_filePath None;;
         try_finally
           (try_catch T
              (fun error =>
                 console_error label;;
                 res_status_json 500 (error_payload fallback error)))
           cleanup_upload) st = (Normal tt, st') /\
    res st' = Some (mkResponse 500 (error_payload fallback e)) /\
    generation_calls st' = generation_calls st ++ List.filter isGenerate evs.
Proof.
  intros Hres HT. rewrite (upload_handler_failure T label fallback st e evs fp Hres HT).
  eexists. split; [reflexivity |]. cbn zeta. rewrite ended_res, ended_calls.
  split; [reflexivity |]. unfold generation_calls. cbn [trace].
  rewrite !List.filter_app. simpl. by rewrite app_nil_r.
Qed.

(** The end of an upload handler whose [try] block sent a response. *)
Lemma upload_handler_sent (T : M unit) (C : Error -> M unit) st r evs fp :
  run T (mkState (fs st) (res st) (trace st) None) =
    (Normal tt, mkState (fs st) (Some r) (trace st ++ evs) fp) ->
  exists st',
    run (set_filePath None;; try_finally (try_catch T C) cleanup_upload) st
      = (Normal tt, st') /\
    res st' = Some r /\
    generation_calls st' = generation_calls st ++ List.filter isGenerate evs.
Proof.
  intros HT. rewrite (upload_handler_success T C st _ HT).
  eexists. split; [reflexivity |]. rewrite ended_res, ended_calls.
  split; [reflexivity |]. apply List.filter_app.
Qed.

(** X8. [/api/ats-check] always answers: for every request the handler
    returns normally (the promise never rejects) with one response sent,
    and either the status is 500 and the generation collaborator was not
    called, or it was called exactly once, with no retry, and the status
    is 200 when it returned a text and 500 when it failed. *)
Theorem ats_check_answers req st :
  res st = None ->
  exists st' r,
    run (ats_check req) st = (Normal tt, st') /\
    res st' = Some r /\
    ((status r = 500 /\ generation_calls st' = generation_calls st) \/
     exists prompt,
       generation_calls st' = generation_calls st ++ [GenerateContent prompt] /\
       match generateContent prompt with
       | Normal _ => status r = 200
       | Throw _ => status r = 500
       end).
Proof.
  intros Hres.
  set (st0 := mkState (fs st) (res st) (trace st) None).
  unfold ats_check, ats_check_catch.
  assert (Hquiet : forall e evs fp,
    run (ats_check_try req) st0 =
      (Throw e, mkState (fs st) (res st) (trace st ++ evs) fp) ->
    List.filter isGenerate evs = [] ->
    exists st' r,
      run (set_filePath None;;
           try_finally
             (try_catch (ats_check_try req)
                (fun error =>
                   console_error "Error in ATS check:";;
                   res_status_json 500 (error_payload "Failed to check ATS score" error)))
             cleanup_upload) st = (Normal tt, st') /\
      res st' = Some r /\
      ((status r = 500 /\ generation_calls st' = generation_calls st) \/
       exists prompt,
         generation_calls st' = generation_calls st ++ [GenerateContent prompt] /\
         match generateContent prompt with
         | Normal _ => status r = 200
         | Throw _ => status r = 500
         end)).
  { intros e evs fp HT Hg.
    destruct (upload_handler_caught (ats_check_try req) "Error in ATS check:"
                "Failed to check ATS score" st e evs fp Hres HT)
      as (st' & Hrun & Hr & Hc).
    eexists st', _. split; [exact Hrun |]. split; [exact Hr |].
    left. split; [reflexivity |]. by rewrite Hc, Hg, app_nil_r. }
  destruct (ats_cases req st0)
    as [[e Hfail] | (f & text & responseText & Hfile & Hx & Hno & Hgen)].
  - destruct Hfail as [Hfile | f Hfile Hx | f text Hfile Hx Hno | f text e' Hfile Hx Hno Hgen].
    + destruct (ats_try_missing_file req st0 Hfile) as (evs & HT & Hg). by eapply Hquiet.
    + destruct (ats_try_unreadable req st0 f Hfile Hx) as (evs & HT & Hg). by eapply Hquiet.
    + destruct (ats_try_without_text req st0 f text Hfile Hx Hno) as (evs & HT & Hg).
      by eapply Hquiet.
    + destruct (ats_try_generation_calls req st0 f text e' Hfile Hx Hno Hgen)
        as (evs & HT & Hg).
      destruct (upload_handler_caught (ats_check_try req) "Error in ATS check:"
                  "Failed to check ATS score" st e' evs _ Hres HT)
        as (st' & Hrun & Hr & Hc).
      eexists st', _. split; [exact Hrun |]. split; [exact Hr |].
      right. eexists. rewrite Hc, Hg. split; [reflexivity |]. by rewrite Hgen.
  - destruct (ats_try_generated_calls req st0 f text responseText Hfile Hx Hno Hgen)
      as (evs & HT & Hg).
    subst st0. cbn [fs res trace filePath] in HT.
    destruct (ats_normalize_answers responseText
                (mkState (fs st) (res st) (trace st ++ evs) (Some (path f))) Hres)
      as (obj & evs' & HN & Hg').
    cbn [fs res trace filePath] in HN. rewrite HN, <- app_assoc in HT.
    destruct (upload_handler_sent _
                (fun error =>
                   console_error "Error in ATS check:";;
                   res_status_json 500 (error_payload "Failed to check ATS score" error))
                st _ _ _ HT) as (st' & Hrun & Hr & Hc).
    eexists st', _. split; [exact Hrun |]. split; [exact Hr |].
    right. eexists. rewrite Hc, List.filter_app, Hg, Hg'. split; [reflexivity |].
    by rewrite Hgen.
Qed.

Lemma letter_try_generation_calls req st f jd text e :
  req_file req = Some f ->
  get (req_body req) (lit "jobDescription") = Some jd ->
  truthy jd = true ->
  extraction (fs st) (path f) = Some text ->
  ~ no_text text ->
  generateContent (cover_letter_prompt (default [] text) jd) = Throw e ->
  exists evs,
    run (generate_cover_letter_try req) st =
      (Throw e, mkState (fs st) (res st) (trace st ++ evs) (Some (path f)))
    /\ List.filter isGenerate evs =
         [GenerateContent (cover_letter_prompt (default [] text) jd)].
Proof.
  intros Hfile Hjd Htruthy Hx Hblank%blank_false Hgen.
  unfold generate_cover_letter_try. unfold_monad.
  rewrite Hfile. reduce. rewrite Hjd. reduce. rewrite Htruthy. cbn [negb]. reduce.
  extract_step. rewrite Hx. reduce. rewrite Hblank. reduce. rewrite Hgen. reduce.
  eexists. cbn [fs res trace filePath]. rewrite <- !app_assoc. split; [reflexivity |].
  rewrite !List.filter_app, Hg. reflexivity.
Qed.

Lemma letter_try_generated_calls req st f jd text responseText :
  req_file req = Some f ->
  get (req_body req) (lit "jobDescription") = Some jd ->
  truthy jd = true ->
  extraction (fs st) (path f) = Some text ->
  ~ no_text text ->
  generateContent (cover_letter_prompt (default [] text) jd) = Normal responseText ->
  exists evs,
    run (generate_cover_letter_try req) st =
      run (cover_letter_normalize responseText)
        (mkState (fs st) (res st) (trace st ++ evs) (Some (path f)))
    /\ List.filter isGenerate evs =
         [GenerateContent (cover_letter_prompt (default [] text) jd)].
Proof.
  intros Hfile Hjd Htruthy Hx Hblank%blank_false Hgen.
  unfold generate_cover_letter_try. unfold_monad.
  rewrite Hfile. reduce. rewrite Hjd. reduce. rewrite Htruthy. cbn [negb]. reduce.
  extract_step. rewrite Hx. reduce. rewrite Hblank. reduce. rewrite Hgen. reduce.
  eexists. cbn [fs res trace filePath]. rewrite <- !app_assoc. split; [reflexivity |].
  rewrite !List.filter_app, Hg. reflexivity.
Qed.

(** X9. [/api/generate-cover-letter] always answers: for every request the
    handler returns normally with one response sent, and either the status
    is 500 and the generation collaborator was not called, or it was called
    exactly once and the status is 200 when it returned a text and 500
    when it failed. *)
Theorem generate_cover_letter_answers req st :
  res st = None ->
  exists st' r,
    run (generate_cover_letter req) st = (Normal tt, st') /\
    res st' = Some r /\
    ((status r = 500 /\ generation_calls st' = generation_calls st) \/
     exists prompt,
       generation_calls st' = generation_calls st ++ [GenerateContent prompt] /\
       match generateContent prompt with
       | Normal _ => status r = 200
       | Throw _ => status r = 500
       end).
Proof.
  intros Hres.
  set (st0 := mkState (fs st) (res st) (trace st) None).
  unfold generate_cover_letter, generate_cover_letter_catch.
  assert (Hquiet : forall e evs fp,
    run (generate_cover_letter_try req) st0 =
      (Throw e, mkState (fs st) (res st) (trace st ++ evs) fp) ->
    List.filter isGenerate evs = [] ->
    exists st' r,
      run (set_filePath None;;
           try_finally
             (try_catch (generate_cover_letter_try req)
                (fun error =>
                   console_error "Error in cover letter generation:";;
                   res_status_json 500
                     (error_payload "Failed to generate cover letter" error)))
             cleanup_upload) st = (Normal tt, st') /\
      res st' = Some r /\
      ((status r = 500 /\ generation_calls st' = generation_calls st) \/
       exists prompt,
         generation_calls st' = generation_calls st ++ [GenerateContent prompt] /\
         match generateContent prompt with
         | Normal _ => status r = 200
         | Throw _ => status r = 500
         end)).
  { intros e evs fp HT Hg.
    destruct (upload_handler_caught (generate_cover_letter_try req)
                "Error in cover letter generation:" "Failed to generate cover letter"
                st e evs fp Hres HT) as (st' & Hrun & Hr & Hc).
    eexists st', _. split; [exact Hrun |]. split; [exact Hr |].
    left. split; [reflexivity |]. by rewrite Hc, Hg, app_nil_r. }
  assert (Hstill : forall e,
    run (generate_cover_letter_try req) st0 = (Throw e, st0) ->
    run (generate_cover_letter_try req) st0 =
      (Throw e, mkState (fs st) (res st) (trace st ++ []) None)).
  { intros e ->. by rewrite app_nil_r. }
  destruct (req_file req) as [f |] eqn:Hfile.
  2: { eapply Hquiet; [apply Hstill, (letter_try_missing_file req st0 Hfile) | reflexivity]. }
  destruct (get (req_body req) (lit "jobDescription")) as [jd |] eqn:Hjd.
  2: { eapply Hquiet;
         [apply Hstill, (letter_try_unreadable_body req st0 f Hfile Hjd) | reflexivity]. }
  destruct (truthy jd) eqn:Hjt.
  2: { eapply Hquiet;
         [apply Hstill, (letter_try_missing_description req st0 f jd Hfile Hjd Hjt)
         | reflexivity]. }
  destruct (extraction (fs st) (path f)) as [text |] eqn:Hx.
  2: { destruct (letter_try_unreadable req st0 f jd Hfile Hjd Hjt Hx) as (evs & HT & Hg).
       by eapply Hquiet. }
  destruct (blank text) eqn:Hb.
  { apply blank_iff in Hb.
    destruct (letter_try_without_text req st0 f jd text Hfile Hjd Hjt Hx Hb)
      as (evs & HT & Hg). by eapply Hquiet. }
  apply blank_false in Hb.
  destruct (generateContent (cover_letter_prompt (default [] text) jd))
    as [responseText | e] eqn:Hgen.
  - destruct (letter_try_generated_calls req st0 f jd text responseText
                Hfile Hjd Hjt Hx Hb Hgen) as (evs & HT & Hg).
    subst st0. cbn [fs res trace filePath] in HT.
    destruct (cover_letter_normalize_answers responseText
                (mkState (fs st) (res st) (trace st ++ evs) (Some (path f))) Hres)
      as (obj & evs' & HN & Hg').
    cbn [fs res trace filePath] in HN. rewrite HN, <- app_assoc in HT.
    destruct (upload_handler_sent _
                (fun error =>
                   console_error "Error in cover letter generation:";;
                   res_status_json 500
                     (error_payload "Failed to generate cover letter" error))
                st _ _ _ HT) as (st' & Hrun & Hr & Hc).
    eexists st', _. split; [exact Hrun |]. split; [exact Hr |].
    right. eexists. rewrite Hc, List.filter_app, Hg, Hg'. split; [reflexivity |].
    by rewrite Hgen.
  - destruct (letter_try_generation_calls req st0 f jd text e Hfile Hjd Hjt Hx Hb Hgen)
      as (evs & HT & Hg).
    destruct (upload_handler_caught (generate_cover_letter_try req)
                "Error in cover letter generation:" "Failed to generate cover letter"
                st e evs _ Hres HT) as (st' & Hrun & Hr & Hc).
    eexists st', _. split; [exact Hrun |]. split; [exact Hr |].
    right. eexists. rewrite Hc, Hg. split; [reflexivity |]. by rewrite Hgen.
Qed.

(** X10. [/api/generate-cover-letter/text] always answers and never
    touches the disk or the PDF parser: for every request the handler
    returns normally with one response sent; either the status is 400 or
    500 and the generation collaborator was not called, or it was called
    exactly once and the status is 200 when it returned a text and 500
    when it failed. *)
Theorem generate_cover_letter_text_answers req st :
  res st = None ->
  exists st' r,
    run (generate_cover_letter_text req) st = (Normal tt, st') /\
    res st' = Some r /\
    fs st' = fs st /\
    extraction_calls st' = extraction_calls st /\
    (((status r = 400 \/ status r = 500) /\ generation_calls st' = generation_calls st) \/
     exists prompt,
       generation_calls st' = generation_calls st ++ [GenerateContent prompt] /\
       match generateContent prompt with
       | Normal _ => status r = 200
       | Throw _ => status r = 500
       end).
Proof.
  intros Hres.
  assert (Hquiet : forall (p : Event -> bool) l evs,
    List.filter p evs = [] -> List.filter p (l ++ evs) = List.filter p l).
  { intros p l evs Hp. by rewrite List.filter_app, Hp, app_nil_r. }
  destruct (get (req_body req) (lit "jobDescription")) as [jd |] eqn:Hjd.
  2: { unfold generate_cover_letter_text, generate_cover_letter_text_try,
         generate_cover_letter_text_catch. unfold_monad. reduce.
       rewrite Hjd. reduce. cbn [fs res trace filePath]. rewrite Hres.
       eexists _, _. split; [reflexivity |]. split; [reflexivity |].
       unfold extraction_calls, generation_calls. cbn [fs res trace status].
       split; [reflexivity |]. rewrite <- !app_assoc.
       split; [by apply Hquiet | left]. split; [by right | by apply Hquiet]. }
  pose proof (get_readable _ _ _ (lit "skillsExperience") Hjd) as Hse.
  set (se := default JUndefined (get (req_body req) (lit "skillsExperience"))) in *.
  destruct (negb (truthy jd) || negb (truthy se)) eqn:Htest.
  { assert (Hfalsy : truthy jd = false \/ truthy se = false).
    { destruct (truthy jd); [right | by left]. by destruct (truthy se). }
    rewrite (text_missing_field req st jd se Hres Hjd Hse Hfalsy).
    eexists _, _. split; [reflexivity |]. split; [reflexivity |].
    unfold extraction_calls, generation_calls. cbn [fs res trace status respond logged].
    split; [reflexivity |]. split; [by apply Hquiet | left].
    split; [by left | by apply Hquiet]. }
  unfold generate_cover_letter_text, generate_cover_letter_text_try,
    generate_cover_letter_text_catch. unfold_monad. reduce.
  rewrite Hjd. reduce. rewrite Hse. reduce. rewrite Htest. reduce.
  destruct (generateContent (cover_letter_text_prompt se jd)) as [responseText | e] eqn:Hgen;
    reduce; cbn [fs res trace filePath].
  - set (st1 := mkState (fs st) (res st)
                  ((trace st ++ [ConsoleLog "Received request body:"]) ++
                   [GenerateContent (cover_letter_text_prompt se jd)]) (filePath st)).
    assert (Hgen1 : generation_calls st1 =
                    generation_calls st ++ [GenerateContent (cover_letter_text_prompt se jd)]).
    { unfold generation_calls, st1. cbn [trace].
      rewrite !List.filter_app, <- app_assoc. reflexivity. }
    assert (Hpdf1 : extraction_calls st1 = extraction_calls st).
    { unfold extraction_calls, st1. cbn [trace]. rewrite <- app_assoc. by apply Hquiet. }
    destruct (decide_fields letter_required_fields responseText) as [(v & Hp & Hr) | Hno].
    + pose proof (cover_letter_text_normalize_strict responseText v st1 Hp Hr Hres) as HN.
      unfold run in HN. rewrite HN.
      eexists _, _. split; [reflexivity |]. split; [reflexivity |].
      split; [reflexivity |]. split; [exact Hpdf1 |].
      right. eexists. split; [exact Hgen1 |]. by rewrite Hgen.
    + pose proof (cover_letter_text_normalize_fallback responseText st1 Hno Hres) as HN.
      unfold run in HN. rewrite HN.
      eexists _, _. split; [reflexivity |]. split; [reflexivity |].
      split; [reflexivity |].
      unfold extraction_calls, generation_calls in *. cbn [trace respond logged].
      split; [by rewrite Hquiet | right].
      eexists. rewrite Hquiet by done. split; [exact Hgen1 |]. by rewrite Hgen.
  - rewrite Hres.
    eexists _, _. split; [reflexivity |]. split; [reflexivity |].
    split; [reflexivity |].
    unfold extraction_calls, generation_calls. cbn [trace status].
    rewrite <- !app_assoc.
    split; [by apply Hquiet | right].
    eexists. rewrite !List.filter_app. simpl.
    split; [reflexivity |]. by rewrite Hgen.
Qed.

(** X11. State A of the two cover-letter normalizers. For every generation
    result that parses as JSON with a truthy [coverLetter], whatever its
    type, the response is the status 200 with exactly [{coverLetter}] on
    the upload route and exactly [{success: true, data: {coverLetter}}] on
    the text route: the parsed value unchanged, no other parsed property,
    no [highlights], no [suggestedImprovements], nothing on the console. *)
Theorem letter_strict_response text v st :
  JSON_parse text = Some v ->
  truthy (field v "coverLetter") = true ->
  res st = None ->
  run (cover_letter_normalize text) st =
    (Normal tt,
     mkState (fs st)
       (Some (mkResponse 200 (JObject [(lit "coverLetter", field v "coverLetter")])))
       (trace st) (filePath st))
  /\
  run (cover_letter_text_normalize text) st =
    (Normal tt,
     mkState (fs st)
       (Some (mkResponse 200
          (JObject [
             (lit "success", JBool true);
             (lit "data", JObject [(lit "coverLetter", field v "coverLetter")])
           ])))
       (trace st) (filePath st)).
Proof.
  intros Hparse Hletter Hres. split.
  - exact (cover_letter_normalize_strict text v st Hparse Hletter Hres).
  - exact (cover_letter_text_normalize_strict text v st Hparse Hletter Hres).
Qed.

(** ** From the extracted text to the response *)

(** X12. How [/api/ats-check] composes: for an uploaded PDF with text, the
    generation collaborator is called once, with the ATS template filled
    with the extracted text, and what it returns decides the response, sent
    with status 200: the parsed fields when it is JSON with the required
    fields, the fallback object with the score read off the raw text
    otherwise. *)
Theorem ats_check_generated req st f text responseText :
  res st = None ->
  req_file req = Some f ->
  extraction (fs st) (path f) = Some (Some text) ->
  ~ no_text (Some text) ->
  generateContent (ats_prompt text) = Normal responseText ->
  exists st' obj,
    run (ats_check req) st = (Normal tt, st') /\
    sent st' 200 obj /\
    generation_calls st' = generation_calls st ++ [GenerateContent (ats_prompt text)] /\
    (forall v, JSON_parse responseText = Some v -> ats_required_fields v = true ->
       obj = ats_strict v) /\
    ((forall v, JSON_parse responseText = Some v -> ats_required_fields v = false) ->
       obj = ats_fallback (fallback_score responseText)).
Proof.
  intros Hres Hfile Hx Hno Hgen.
  destruct (ats_try_generated_calls req (mkState (fs st) (res st) (trace st) None)
              f (Some text) responseText Hfile Hx Hno Hgen) as (evs & HT & Hg).
  cbn [fs res trace filePath] in HT.
  set (st1 := mkState (fs st) (res st) (trace st ++ evs) (Some (path f))) in *.
  unfold ats_check.
  destruct (decide_fields ats_required_fields responseText) as [(v & Hp & Hr) | Hfb].
  - rewrite (ats_normalize_strict responseText v st1 Hp Hr Hres) in HT.
    destruct (upload_handler_sent _ ats_check_catch st _ _ _ HT) as (st' & Hrun & Hsent & Hc).
    exists st', (ats_strict v). split; [exact Hrun |]. split; [exact Hsent |].
    split; [by rewrite Hc, Hg |]. split.
    + intros v' Hv' _. congruence.
    + intros Hall. specialize (Hall v Hp). congruence.
  - rewrite (ats_normalize_fallback responseText st1 Hfb Hres) in HT.
    unfold respond, logged, st1 in HT. cbn [fs res trace filePath] in HT.
    rewrite <- app_assoc in HT.
    destruct (upload_handler_sent _ ats_check_catch st _ _ _ HT) as (st' & Hrun & Hsent & Hc).
    exists st', (ats_fallback (fallback_score responseText)).
    split; [exact Hrun |]. split; [exact Hsent |].
    split; [by rewrite Hc, List.filter_app, Hg |]. split.
    + intros v Hv Hr. specialize (Hfb v Hv). congruence.
    + reflexivity.
Qed.


(** ** Prompt templates *)

(** X14. The ATS prompt is the extracted text between a fixed beginning and
    a fixed end, copied as it is, so that the prompt tells the text: two
    different texts never give the same prompt. *)
Theorem ats_prompt_embeds_text :
  (exists before after, forall text, ats_prompt text = before ++ text ++ after) /\
  (forall text1 text2, ats_prompt text1 = ats_prompt text2 -> text1 = text2).
Proof.
  assert (Hshape : exists before after,
            forall text, ats_prompt text = before ++ text ++ after).
  { exists (unlines [
        lit "You are an ATS (Applicant Tracking System) expert. Analyze this resume and provide:";
        lit "    1. A score from 0-100 based on ATS compatibility";
        lit "    2. Key findings about the resume's ATS-friendliness";
        lit "    3. Specific suggestions for improvement";
        [];
        lit "    Resume content:";
        lit "    "
      ]).
    exists (JsString.nl ++ unlines [
        [];
        lit "    Provide the response in the following JSON format only:";
        lit "    {";
        lit "      " ++ quoted "score" ++ lit ": number,";
        lit "      " ++ quoted "findings" ++ lit ": [string],";
        lit "      " ++ quoted "suggestions" ++ lit ": [string]";
        lit "    }"
      ]).
    intros text. reflexivity. }
  split; [exact Hshape |].
  destruct Hshape as (before & after & Hshape).
  intros text1 text2. rewrite !Hshape.
  intros H%app_inv_head. by apply app_inv_tail in H.
Qed.

(** X15. The cover-letter prompts do not delimit what they embed: moving
    the text of the template between the two fields from one field to the
    other leaves the prompt the same, so different requests can send the
    same prompt. *)
Theorem cover_letter_prompts_ambiguous a b c :
  cover_letter_prompt
    (a ++ JsString.nl ++ JsString.nl ++ lit "    Job Description:" ++ JsString.nl
       ++ lit "    " ++ b)
    (JString c)
  = cover_letter_prompt a
      (JString (b ++ JsString.nl ++ JsString.nl ++ lit "    Job Description:"
                  ++ JsString.nl ++ lit "    " ++ c))
  /\
  cover_letter_text_prompt
    (JString (a ++ JsString.nl ++ lit "    Job Description: " ++ b))
    (JString c)
  = cover_letter_text_prompt (JString a)
      (JString (b ++ JsString.nl ++ lit "    Job Description: " ++ c)).
Proof.
  split.
  - unfold cover_letter_prompt, unlines, interpolate.
    cbn [List.map List.concat]. rewrite <- !app_assoc. reflexivity.
  - unfold cover_letter_text_prompt, unlines, interpolate.
    cbn [List.map List.concat]. rewrite <- !app_assoc. reflexivity.
Qed.

(** ** The fallback letter *)

(** X16. The cover letter of the fallback, on both routes, has no carriage
    return and no empty line, neither begins nor ends with white space, and
    is the trimmed raw text when that has no line break at all. *)
Theorem fallback_letter_shape highlight text :
  exists letter rest,
    letter_fallback highlight text = JObject ((lit "coverLetter", JString letter) :: rest) /\
    Forall (fun c => c <> 13) letter /\
    (forall a b, letter <> a ++ 10 :: 10 :: b) /\
    (forall c, head letter = Some c -> JsString.isWhiteSpace c = false) /\
    (forall c, last letter = Some c -> JsString.isWhiteSpace c = false) /\
    (Forall (fun c => JsString.isCRLF c = false) text -> letter = JsString.trim text).
Proof.
  unfold letter_fallback. eexists _, _. split; [reflexivity |].
  destruct (trim_split (JsString.replace_crlf text)) as (pre & post & Hsplit & _ & _).
  repeat split.
  - pose proof (replace_runs_no_cr false text) as Hcr.
    fold (JsString.replace_crlf text) in Hcr. rewrite Hsplit in Hcr.
    by apply Forall_app in Hcr as [_ [Hcr _]%Forall_app].
  - intros a b Hab. rewrite Hab in Hsplit.
    assert (Hrun : JsString.replace_runs false text = (pre ++ a) ++ 10 :: (10 :: b ++ post)).
    { fold (JsString.replace_crlf text). rewrite Hsplit, <- !app_assoc. reflexivity. }
    by pose proof (replace_runs_single_lf _ _ _ _ Hrun 10 eq_refl).
  - apply trim_ends.
  - apply trim_ends.
  - intros Hclean. by rewrite replace_crlf_unchanged.
Qed.

(** X17. The score of the ATS fallback is whatever number comes first in
    the raw text, without any check of its range: when the generation
    result is not JSON with the required fields and its first run of
    digits is the decimal writing of [n], the response is the fallback
    object with the Number of [n] as its score. *)
Theorem ats_fallback_reads_first_number before n after st :
  res st = None ->
  Forall (fun c => JsString.isDigit c = false) before ->
  (forall c, head after = Some c -> JsString.isDigit c = false) ->
  (forall v, JSON_parse (before ++ JsString.of_N n ++ after) = Some v ->
     ats_required_fields v = false) ->
  run (ats_normalize (before ++ JsString.of_N n ++ after)) st =
    (Normal tt,
     respond 200 (ats_fallback (JsNumber.of_N n))
       (logged (ConsoleError "Parse error:") st)).
Proof.
  intros Hres Hb Ha Hfb.
  rewrite (ats_normalize_fallback _ st Hfb Hres). unfold fallback_score.
  rewrite (match_digits_first before (JsString.of_N n) after Hb
             (of_N_nonempty n) (of_N_digits n) Ha).
  by rewrite (parseInt_digits _ (of_N_nonempty n) (of_N_digits n)), decimal_of_N.
Qed.

(** X18. Normalizing a fallback letter again changes nothing: the cover
    letter of the fallback object, given back as the raw text, gives the
    same object. *)
Theorem fallback_letter_idempotent highlight text :
  letter_fallback highlight (JsString.trim (JsString.replace_crlf text))
  = letter_fallback highlight text.
Proof.
  unfold letter_fallback. do 3 f_equal.
  destruct (trim_split (JsString.replace_crlf text)) as (pre & post & Hsplit & _ & _).
  rewrite (replace_crlf_fixed (JsString.trim (JsString.replace_crlf text))).
  - f_equal. apply trim_fixed; apply trim_ends.
  - pose proof (replace_runs_no_cr false text) as Hcr.
    fold (JsString.replace_crlf text) in Hcr. rewrite Hsplit in Hcr.
    by apply Forall_app in Hcr as [_ [Hcr _]%Forall_app].
  - intros a b Hab. rewrite Hab in Hsplit.
    assert (Hrun : JsString.replace_runs false text = (pre ++ a) ++ 10 :: (b ++ post)).
    { fold (JsString.replace_crlf text). rewrite Hsplit, <- !app_assoc. reflexivity. }
    intros c Hc. apply (replace_runs_single_lf _ _ _ _ Hrun c).
    destruct b; [discriminate | exact Hc].
Qed.


End Properties.

(** X4. The name under which an upload is stored tells the clock reading
    and the original name: two uploads get the same stored name exactly
    when they arrive in the same millisecond with the same original name. *)
Theorem stored_name_unique (e1 e2 : Engine) (f1 f2 : FilePart) :
  filename (engine := e1) f1 = filename (engine := e2) f2 <->
  @Date_now e1 = @Date_now e2 /\ originalname f1 = originalname f2.
Proof.
  unfold filename. split.
  - intros H.
    assert (Hdigit : forall n, Forall (fun d => d <> 45) (JsString.of_N n)).
    { intros n. eapply Forall_impl; [apply of_N_digits |].
      intros c Hc ->. discriminate. }
    destruct (split_at_first 45 _ _ _ _ (Hdigit _) (Hdigit _) H) as [Hn Ho].
    split; [by apply of_N_inj | exact Ho].
  - by intros [-> ->].
Qed.

(** * The specification on sample inputs *)

(** The collaborator's answer of the first scenario of the specification
    goes through unchanged. *)
Lemma ats_strict_response_witness :
  @JSON_parse Demo.plain Demo.scored_text = Some Demo.scored /\
  run (ats_normalize (engine := Demo.plain) Demo.scored_text) (initial ∅) =
    (Normal tt, respond 200 Demo.scored (initial ∅)).
Proof.
  split; [reflexivity |].
  apply (@ats_strict_response Demo.plain Demo.scored_text Demo.scored (initial ∅));
    reflexivity.
Defined.

(** C1 as stated fails: [findings] is present and [null] in the parsed
    value, and the response has the empty sequence in its place. *)
Lemma ats_strict_findings_counterexample :
  @JSON_parse Demo.plain Demo.null_findings_text = Some Demo.null_findings /\
  ats_required_fields Demo.null_findings = true /\
  absent Demo.null_findings "findings" = false /\
  res (snd (run (ats_normalize (engine := Demo.plain) Demo.null_findings_text) (initial ∅)))
    <> Some (mkResponse 200 (ats_strict_as_specified Demo.null_findings)).
Proof.
  split; [reflexivity |]. split; [reflexivity |]. split; [reflexivity |].
  vm_compute. discriminate.
Qed.

(** The second scenario of the specification: a sentence with a number. *)
Lemma ats_fallback_response_witness :
  res (initial ∅) = None /\
  @JSON_parse Demo.plain Demo.sentence = None /\
  exists score,
    run (ats_normalize (engine := Demo.plain) Demo.sentence) (initial ∅) =
      (Normal tt,
       mkState ∅
         (Some (mkResponse 200
            (JObject [
               (lit "score", JNumber score);
               (lit "findings", JArray [JString (lit "Analysis completed")]);
               (lit "suggestions",
                 JArray [JString (lit "Consider reviewing the resume format")])
             ])))
         ([] ++ [ConsoleError "Parse error:"]) None)
    /\ ((exists before digits after,
           Demo.sentence = before ++ digits ++ after /\
           Forall (fun c => JsString.isDigit c = false) before /\
           digits <> [] /\
           Forall (fun c => JsString.isDigit c = true) digits /\
           (forall c, head after = Some c -> JsString.isDigit c = false) /\
           score = JsNumber.of_N (JsNumber.decimal digits))
        \/ (Forall (fun c => JsString.isDigit c = false) Demo.sentence /\
            score = JsNumber.of_N 70)).
Proof.
  split; [reflexivity |]. split; [reflexivity |].
  apply (@ats_fallback_response Demo.plain Demo.sentence (initial ∅));
    [reflexivity | left; reflexivity].
Defined.

Example ats_fallback_scenario :
  run (ats_normalize (engine := Demo.plain) Demo.sentence) (initial ∅) =
    (Normal tt,
     respond 200 (ats_fallback (JsNumber.of_N 75))
       (logged (ConsoleError "Parse error:") (initial ∅))).
Proof. vm_compute. reflexivity. Qed.

(** C3 as stated fails: the line feed that ends the text stays in the
    normalized text and is not in the cover letter. *)
Lemma letter_fallback_counterexample :
  @JSON_parse Demo.plain Demo.letter_text = None /\
  letter_as_specified Demo.letter_text = lit "Dear team," ++ [10] ++ lit "Thanks." ++ [10] /\
  (res (snd (run (cover_letter_normalize (engine := Demo.plain) Demo.letter_text)
               (initial ∅)))
     ≫= fun r => get (json r) (lit "coverLetter"))
    = Some (JString (lit "Dear team," ++ [10] ++ lit "Thanks.")) /\
  (res (snd (run (cover_letter_normalize (engine := Demo.plain) Demo.letter_text)
               (initial ∅)))
     ≫= fun r => get (json r) (lit "coverLetter"))
    <> Some (JString (letter_as_specified Demo.letter_text)).
Proof.
  split; [reflexivity |]. split; [reflexivity |]. split; [reflexivity |].
  vm_compute. discriminate.
Qed.

Lemma letter_fallback_response_witness :
  res (initial ∅) = None /\
  @JSON_parse Demo.plain Demo.letter_text = None /\
  run (cover_letter_normalize (engine := Demo.plain) Demo.letter_text) (initial ∅) =
    (Normal tt,
     mkState ∅
       (Some (mkResponse 200
          (JObject [
             (lit "coverLetter",
               JString (JsString.trim (JsString.replace_crlf Demo.letter_text)));
             (lit "highlights",
               JArray [JString
                 (lit "Letter generated based on your resume and job description")]);
             (lit "suggestedImprovements",
               JArray [JString
                 (lit "Consider reviewing and personalizing the generated content")])
           ])))
       ([] ++ [ConsoleError "Parse error:"]) None).
Proof.
  split; [reflexivity |]. split; [reflexivity |].
  apply (proj1 (@letter_fallback_response Demo.plain Demo.letter_text (initial ∅)
                  eq_refl (or_introl eq_refl))).
Defined.

(** A string and 150 both reach the client as the score. *)
Lemma ats_strict_score_unvalidated_witness :
  (exists st' r,
     run (ats_normalize (engine := Demo.plain) Demo.string_score_text) (initial ∅)
       = (Normal tt, st') /\
     res st' = Some r /\ status r = 200 /\
     get (json r) (lit "score") = Some (JString (lit "high")))
  /\
  (exists st' r,
     run (ats_normalize (engine := Demo.plain) Demo.big_score_text) (initial ∅)
       = (Normal tt, st') /\
     res st' = Some r /\ status r = 200 /\
     get (json r) (lit "score") = Some (JNumber (JsNumber.of_N 150))).
Proof.
  split.
  - apply (@ats_strict_score_unvalidated Demo.plain Demo.string_score_text
             Demo.string_score (initial ∅)); try reflexivity.
    left. exists (lit "high"). split; [reflexivity | discriminate].
  - apply (@ats_strict_score_unvalidated Demo.plain Demo.big_score_text
             Demo.big_score (initial ∅)); try reflexivity.
    right. exists (JsNumber.of_N 150). split; reflexivity.
Defined.

(** An accepted PDF without a job description stays in the upload
    directory. *)
Lemma cover_letter_upload_not_cleaned_witness :
  exists st,
    post_upload (engine := Demo.plain) (generate_cover_letter (engine := Demo.plain))
      (mkRequest (Some Demo.resume_part) (JObject [])) ∅ = Handled (Normal tt) st /\
    sent st 500
      (JObject [
         (lit "error", JString (lit "No job description provided"));
         (lit "details", JUndefined)
       ]) /\
    fs st !! Demo.resume_path = Some (File [37; 80; 68; 70] true).
Proof.
  apply (@cover_letter_upload_not_cleaned Demo.plain
           (mkRequest (Some Demo.resume_part) (JObject [])) Demo.resume_part ∅ JUndefined);
    try reflexivity; try (vm_compute; discriminate).
  left. split; reflexivity.
Defined.

(** The same upload on the ATS route is removed. *)
Example ats_upload_cleaned :
  exists st,
    post_upload (engine := Demo.plain) (ats_check (engine := Demo.plain))
      (mkRequest (Some Demo.resume_part) (JObject [])) ∅ = Handled (Normal tt) st /\
    sent st 200 (ats_fallback (JsNumber.of_N 75)) /\
    fs st !! Demo.resume_path = None.
Proof. eexists. vm_compute. repeat split. Qed.

(** The third scenario of the specification. *)
Lemma text_route_validation_witness :
  exists st,
    post_json (generate_cover_letter_text (engine := Demo.plain)) Demo.partial_body ∅
      = Handled (Normal tt) st /\
    res st =
      Some (mkResponse 400
        (JObject [
           (lit "success", JBool false);
           (lit "error",
             JString (lit "Both job description and skills/experience are required"))
         ])) /\
    generation_calls st = [].
Proof.
  apply (@text_route_validation Demo.plain Demo.partial_body ∅);
    [discriminate | discriminate | right; reflexivity].
Defined.


(** A scanned PDF: the parser finds three spaces. *)
Lemma blank_pdf_rejected_witness :
  (exists st',
     run (ats_check (engine := Demo.scanned) Demo.upload_request)
       (initial Demo.disk_with_resume) = (Normal tt, st') /\
     sent st' 500
       (JObject [
          (lit "error", JString (lit "Could not extract text from PDF"));
          (lit "details", JUndefined)
        ]) /\
     generation_calls st' = [])
  /\
  (exists st' e,
     run (generate_cover_letter (engine := Demo.scanned) Demo.upload_request)
       (initial Demo.disk_with_resume) = (Normal tt, st') /\
     sent st' 500 (error_object (engine := Demo.scanned) "Failed to generate cover letter" e) /\
     generation_calls st' = [] /\
     (truthy (field (req_body Demo.upload_request) "jobDescription") = true ->
      e = new_Error (engine := Demo.scanned) "Could not extract text from resume PDF")).
Proof.
  apply (@blank_pdf_rejected Demo.scanned Demo.upload_request
           (initial Demo.disk_with_resume) Demo.resume_file (Some (lit "   ")));
    try reflexivity.
  simpl. repeat constructor.
Defined.




(** The stored file is removed by the first call; the second call finds
    nothing. *)
Lemma cleanupFile_total_idempotent_witness :
  exists st1 st2,
    run (cleanupFile (engine := Demo.plain) Demo.resume_path)
      (initial Demo.disk_with_resume) = (Normal tt, st1) /\
    run (cleanupFile (engine := Demo.plain) Demo.resume_path) st1 = (Normal tt, st2) /\
    fs st2 = fs st1 /\
    fs st1 = delete Demo.resume_path Demo.disk_with_resume.
Proof.
  destruct (@cleanupFile_total_idempotent Demo.plain Demo.resume_path
              (initial Demo.disk_with_resume))
    as (st1 & st2 & H1 & H2 & Hsame & _ & Hgone & _).
  exists st1, st2. repeat split; try assumption.
  apply (Hgone [37; 80; 68; 70]). reflexivity.
Defined.

(** * The further properties on sample inputs *)

(** The sample resume, as the intake stores it. *)
Lemma accepted_upload_is_stored_pdf_witness :
  exists file,
    part (mkRequest (Some Demo.resume_part) (JObject [])) = Some file /\
    originalname file <> [] /\
    fieldname file = lit "resume" /\
    mimetype (engine := Demo.plain) file = lit "application/pdf" /\
    size file < 5242880 /\
    Demo.resume_path =
      lit "uploads/" ++ JsString.of_N (@Date_now Demo.plain) ++ lit "-" ++ originalname file /\
    lit "cv.pdf" = originalname file /\
    lit "application/pdf" = lit "application/pdf" /\
    fs (snd (run (upload_single (engine := Demo.plain) (lit "resume")
                    (mkRequest (Some Demo.resume_part) (JObject []))) (initial ∅)))
      !! Demo.resume_path = Some (File (content file) true) /\
    Demo.resume_path <> [] /\
    res (snd (run (upload_single (engine := Demo.plain) (lit "resume")
                     (mkRequest (Some Demo.resume_part) (JObject []))) (initial ∅))) = None /\
    trace (snd (run (upload_single (engine := Demo.plain) (lit "resume")
                       (mkRequest (Some Demo.resume_part) (JObject []))) (initial ∅))) = [].
Proof.
  apply (@accepted_upload_is_stored_pdf Demo.plain (lit "resume")
           (mkRequest (Some Demo.resume_part) (JObject [])) ∅
           (mkUploadedFile Demo.resume_path (lit "cv.pdf") (lit "application/pdf") 10240)).
  vm_compute. reflexivity.
Defined.

(** The sample resume is gone after the ATS route has answered; where the
    server cannot unlink what it stored, the file is still there. *)
Lemma ats_upload_removed_witness :
  (exists st,
     post_upload (engine := Demo.plain) (ats_check (engine := Demo.plain))
       (mkRequest (Some Demo.resume_part) (JObject [])) ∅ = Handled (Normal tt) st /\
     is_Some (res st) /\
     fs st !! Demo.resume_path = None)
  /\
  (exists st,
     post_upload (engine := Demo.sticky) (ats_check (engine := Demo.sticky))
       (mkRequest (Some Demo.resume_part) (JObject [])) ∅ = Handled (Normal tt) st /\
     is_Some (res st) /\
     fs st !! Demo.resume_path = Some (File [37; 80; 68; 70] false)).
Proof.
  split.
  - apply (@ats_upload_removed Demo.plain
             (mkRequest (Some Demo.resume_part) (JObject [])) Demo.resume_part ∅);
      try reflexivity; try (vm_compute; discriminate).
    left. split; reflexivity.
  - apply (@ats_upload_removed Demo.sticky
             (mkRequest (Some Demo.resume_part) (JObject [])) Demo.resume_part ∅);
      try reflexivity; try (vm_compute; discriminate).
    left. split; reflexivity.
Defined.

Lemma cover_letter_upload_removed_witness :
  exists st,
    post_upload (engine := Demo.writer) (generate_cover_letter (engine := Demo.writer))
      (mkRequest (Some Demo.resume_part) Demo.partial_body) ∅ = Handled (Normal tt) st /\
    is_Some (res st) /\
    fs st !! Demo.resume_path = None.
Proof.
  apply (@cover_letter_upload_removed Demo.writer
           (mkRequest (Some Demo.resume_part) Demo.partial_body) Demo.resume_part ∅
           (JString (lit "Backend engineer")));
    try reflexivity; try (vm_compute; discriminate).
  left. split; reflexivity.
Defined.

Lemma ats_check_answers_witness :
  exists st' r,
    run (ats_check (engine := Demo.failing) Demo.upload_request)
      (initial Demo.disk_with_resume) = (Normal tt, st') /\
    res st' = Some r /\
    ((status r = 500 /\ generation_calls st' = generation_calls (initial Demo.disk_with_resume))
     \/
     exists prompt,
       generation_calls st' =
         generation_calls (initial Demo.disk_with_resume) ++ [GenerateContent prompt] /\
       match @generateContent Demo.failing prompt with
       | Normal _ => status r = 200
       | Throw _ => status r = 500
       end).
Proof.
  apply (@ats_check_answers Demo.failing Demo.upload_request
           (initial Demo.disk_with_resume)).
  reflexivity.
Defined.

Lemma generate_cover_letter_answers_witness :
  exists st' r,
    run (generate_cover_letter (engine := Demo.writer) Demo.described_request)
      (initial Demo.disk_with_resume) = (Normal tt, st') /\
    res st' = Some r /\
    ((status r = 500 /\ generation_calls st' = generation_calls (initial Demo.disk_with_resume))
     \/
     exists prompt,
       generation_calls st' =
         generation_calls (initial Demo.disk_with_resume) ++ [GenerateContent prompt] /\
       match @generateContent Demo.writer prompt with
       | Normal _ => status r = 200
       | Throw _ => status r = 500
       end).
Proof.
  apply (@generate_cover_letter_answers Demo.writer Demo.described_request
           (initial Demo.disk_with_resume)).
  reflexivity.
Defined.

Lemma generate_cover_letter_text_answers_witness :
  exists st' r,
    run (generate_cover_letter_text (engine := Demo.writer) (mkReq None JNull))
      (initial Demo.disk_with_resume) = (Normal tt, st') /\
    res st' = Some r /\
    fs st' = Demo.disk_with_resume /\
    extraction_calls st' = [] /\
    (((status r = 400 \/ status r = 500) /\ generation_calls st' = []) \/
     exists prompt,
       generation_calls st' = [] ++ [GenerateContent prompt] /\
       match @generateContent Demo.writer prompt with
       | Normal _ => status r = 200
       | Throw _ => status r = 500
       end).
Proof.
  apply (@generate_cover_letter_text_answers Demo.writer (mkReq None JNull)
           (initial Demo.disk_with_resume)).
  reflexivity.
Defined.

Lemma letter_strict_response_witness :
  run (cover_letter_normalize (engine := Demo.writer) Demo.letter_json_text) (initial ∅) =
    (Normal tt, respond 200 Demo.letter_json (initial ∅))
  /\
  run (cover_letter_text_normalize (engine := Demo.writer) Demo.letter_json_text)
    (initial ∅) =
    (Normal tt,
     respond 200
       (JObject [(lit "success", JBool true); (lit "data", Demo.letter_json)])
       (initial ∅)).
Proof.
  apply (@letter_strict_response Demo.writer Demo.letter_json_text Demo.letter_json
           (initial ∅)); reflexivity.
Defined.

(** The first scenario of the specification, from the stored PDF to the
    response. *)
Lemma ats_check_generated_witness :
  exists st' obj,
    run (ats_check (engine := Demo.scorer) Demo.upload_request)
      (initial Demo.disk_with_resume) = (Normal tt, st') /\
    sent st' 200 obj /\
    generation_calls st' =
      generation_calls (initial Demo.disk_with_resume)
      ++ [GenerateContent (ats_prompt Demo.resume_text)] /\
    (forall v, @JSON_parse Demo.scorer Demo.scored_text = Some v ->
       ats_required_fields v = true -> obj = ats_strict v) /\
    ((forall v, @JSON_parse Demo.scorer Demo.scored_text = Some v ->
        ats_required_fields v = false) ->
       obj = ats_fallback (fallback_score Demo.scored_text)).
Proof.
  apply (@ats_check_generated Demo.scorer Demo.upload_request
           (initial Demo.disk_with_resume) Demo.resume_file Demo.resume_text
           Demo.scored_text); try reflexivity.
  simpl. intros H. inversion H. discriminate.
Defined.


(** A year before the score: the year is the score. *)
Lemma ats_fallback_reads_first_number_witness :
  run (ats_normalize (engine := Demo.plain)
         (lit "In " ++ JsString.of_N 2024 ++ lit " your resume would score 75."))
    (initial ∅) =
    (Normal tt,
     respond 200 (ats_fallback (JsNumber.of_N 2024))
       (logged (ConsoleError "Parse error:") (initial ∅))).
Proof.
  apply (@ats_fallback_reads_first_number Demo.plain (lit "In ") 2024
           (lit " your resume would score 75.") (initial ∅)).
  - reflexivity.
  - repeat constructor.
  - intros c [= <-]. reflexivity.
  - intros v Hv. vm_compute in Hv. discriminate.
Defined.


(** A PDF of exactly 5 MiB reaches the limit: the request fails and what
    was written of the file is removed. *)
Example limit_upload_refused :
  exists st,
    post_upload (engine := Demo.plain) (ats_check (engine := Demo.plain))
      (mkRequest (Some Demo.limit_part) (JObject [])) ∅ =
      Skipped (new_Error (engine := Demo.plain) "File too large") st /\
    fs st !! Demo.resume_path = None /\
    res st = None /\ trace st = [].
Proof. eexists. vm_compute. repeat split. Qed.

(** Where the upload directory is missing and cannot be created, the error
    of [mkdirSync] comes out of [storage.destination] and no handler runs. *)
Example destination_read_only :
  run (destination (engine := Demo.read_only)) (initial ∅) =
    (Throw (@engine_error Demo.read_only (EPERM (lit "uploads"))), initial ∅) /\
  exists e st,
    post_upload (engine := Demo.read_only) (ats_check (engine := Demo.read_only))
      (mkRequest (Some Demo.resume_part) (JObject [])) ∅ = Skipped e st /\
    fs st = ∅ /\ res st = None /\ trace st = [].
Proof. split; [reflexivity |]. eexists _, _. vm_compute. repeat split. Qed.
